(** * Noise pollution control system: the real-time telemetry hub of [app.py]

    A shallow embedding of the request handlers and Socket.IO event handlers
    of [src/app.py] (Flask, Flask-SQLAlchemy, Flask-SocketIO), and the
    properties the specification states about them.

    - Python floats are IEEE 754 binary64 values, modelled by the Standard
      Library's [spec_float] (precision 53, [emax] 1024).
    - JSON payloads are values of the type [value]; a JSON object is a list of
      bindings read by key.
    - The database is a record of two tables; the SQLAlchemy unit of work is a
      [Session] of pending changes that [commit] writes and [rollback] drops.
    - Handlers run in a state-and-exception monad over the database, the
      session and the list of Socket.IO emissions performed so far. *)

From Stdlib Require Import ZArith QArith Qpower String List Bool Lia.
From Stdlib Require Import Floats.SpecFloat.
From stdpp Require Import base gmap strings list sorting.

Local Open Scope Z_scope.
Local Open Scope string_scope.
#[local] Set Warnings "-register-all".

(** ** Python floats *)

Module Float.

Definition prec : Z := 53.
Definition emax : Z := 1024.

(** A [spec_float] that is a binary64 value: the mantissa is canonical. *)
Definition is_binary64 (f : spec_float) : bool := valid_binary prec emax f.

(** The float nearest to an integer (round to nearest, ties to even), as
    [float(n)] and the comparison of a float with an [int] literal use it. *)
Definition of_Z (n : Z) : spec_float := binary_normalize prec emax n 0 false.

(** The rational a finite float denotes; [None] for NaN and infinities. *)
Definition to_Q (f : spec_float) : option Q :=
  match f with
  | S754_zero _ => Some 0%Q
  | S754_finite s m e => Some (inject_Z (cond_Zopp s (Zpos m)) * 2 ^ e)%Q
  | S754_infinity _ | S754_nan => None
  end.

Definition nan : spec_float := S754_nan.
Definition pos_infinity : spec_float := S754_infinity false.
Definition neg_infinity : spec_float := S754_infinity true.

(** The literals of the specification's boundary table. [70.1] and [85.1]
    are not dyadic: the literal denotes the nearest binary64 value. *)
Definition f70_0 : spec_float := S754_finite false 4925812092436480 (-46).
Definition f70_1 : spec_float := S754_finite false 4932848966854246 (-46).
Definition f85_0 : spec_float := S754_finite false 5981343255101440 (-46).
Definition f85_1 : spec_float := S754_finite false 5988380129519206 (-46).
Definition f90_0 : spec_float := S754_finite false 6333186975989760 (-46).

(** [x <= n] for a float [x] and an [int] literal [n] that a float holds
    exactly (70 and 85 here): Python compares the two values exactly. *)
Definition le_int (x : spec_float) (n : Z) : bool := SFleb x (of_Z n).

(** The scaled integer [z * 2^(e+1074)]: every binary64 value is an integer
    multiple of [2^-1074]. *)
Definition scaled (s : bool) (m : positive) (e : Z) : Z :=
  cond_Zopp s (Zpos m) * 2 ^ (e + 1074).

End Float.

(** ** Helper functions of [app.py] *)

(** [get_noise_category], lines 22-29. *)
Definition get_noise_category (noise_level : spec_float) : string :=
  if Float.le_int noise_level 70 then "safe"
  else if Float.le_int noise_level 85 then "moderate"
  else "harmful".

(** ** JSON values and the Python operations the handlers apply to them *)

Inductive value : Type :=
| VNone
| VBool (b : bool)
| VInt (n : Z)
| VFloat (f : spec_float)
| VStr (s : string)
| VList (l : list value)
| VDict (d : list (string * value)).

(** The exceptions the handlers can meet. [DatabaseError] stands for every
    error SQLAlchemy raises from a statement or a commit. *)
Inductive exn : Type :=
| TypeError (msg : string)
| ValueError
| KeyError (k : string)
| AttributeError
| OverflowError
| DatabaseError.

Inductive result (A : Type) : Type :=
| Ok (a : A)
| Raise (e : exn).
Arguments Ok {A} a.
Arguments Raise {A} e.

(** Truth value of a JSON value ([if not device_id]). *)
Definition truthy (v : value) : bool :=
  match v with
  | VNone => false
  | VBool b => b
  | VInt n => negb (n =? 0)%Z
  | VFloat (S754_zero _) => false
  | VFloat _ => true
  | VStr s => negb (String.eqb s "")
  | VList l => match l with [] => false | _ => true end
  | VDict d => match d with [] => false | _ => true end
  end.

(** A dict is a list of bindings; a key reads its first binding. *)
Fixpoint dict_get (k : string) (d : list (string * value)) : option value :=
  match d with
  | [] => None
  | (k', v) :: d' => if String.eqb k k' then Some v else dict_get k d'
  end.

(** [k in d] *)
Definition dict_has (k : string) (d : list (string * value)) : bool :=
  match dict_get k d with Some _ => true | None => false end.

(** [data.get(k)] and [data.get(k, default)]: only a dict has [get]. *)
Definition py_get (data : value) (k : string) (default : value) : result value :=
  match data with
  | VDict d => Ok (match dict_get k d with Some v => v | None => default end)
  | _ => Raise AttributeError
  end.

(** [data[k]] for a string key [k]: [KeyError] on a dict without the key;
    [None], numbers, strings and lists do not take a string subscript. *)
Definition py_getitem (data : value) (k : string) : result value :=
  match data with
  | VDict d => match dict_get k d with Some v => Ok v | None => Raise (KeyError k) end
  | _ => Raise (TypeError "subscript")
  end.

Section PyFloat.

(** Python's parser of float literals ([float("90.5")], [float("nan")]), taken
    as given: [None] where [float] raises [ValueError]. *)
Variable float_of_str : string -> option spec_float.

(** [float(v)] *)
Definition py_float (v : value) : result spec_float :=
  match v with
  | VFloat f => Ok f
  | VInt n =>
      match Float.of_Z n with
      | S754_infinity _ => Raise OverflowError
      | f => Ok f
      end
  | VBool b => Ok (Float.of_Z (if b then 1 else 0))
  | VStr s => match float_of_str s with Some f => Ok f | None => Raise ValueError end
  | VNone | VList _ | VDict _ => Raise (TypeError "float")
  end.

End PyFloat.

(** ** Database models (lines 58-74) *)

(** A row of [NoiseReading]. The model has no [device_id] column. *)
Record NoiseReading : Type := mkNoiseReading {
  nr_id : string;
  nr_user_id : string;
  noise_level : spec_float;
  category : value;
  timestamp : Z;
  location : value
}.

(** A row of [Device]. [battery_level] and [is_connected] hold whatever JSON
    value a handler assigned. Time stamps are instants of the server clock. *)
Record Device : Type := mkDevice {
  dev_id : string;
  dev_user_id : string;
  device_name : value;
  device_type : value;
  battery_level : value;
  is_connected : value;
  last_connected : Z;
  created_at : Z
}.

(** Attribute assignments [device.battery_level = ...] and the like. *)
Definition set_battery_level (d : Device) (v : value) : Device :=
  mkDevice (dev_id d) (dev_user_id d) (device_name d) (device_type d)
    v (is_connected d) (last_connected d) (created_at d).

Definition set_is_connected (d : Device) (v : value) : Device :=
  mkDevice (dev_id d) (dev_user_id d) (device_name d) (device_type d)
    (battery_level d) v (last_connected d) (created_at d).

Definition set_last_connected (d : Device) (t : Z) : Device :=
  mkDevice (dev_id d) (dev_user_id d) (device_name d) (device_type d)
    (battery_level d) (is_connected d) t (created_at d).

(** The attributes each model class declares; the declarative constructor
    accepts a keyword only if the class has an attribute of that name. *)
Definition NoiseReading_columns : list string :=
  ["id"; "user_id"; "noise_level"; "category"; "timestamp"; "location"].

Definition Device_columns : list string :=
  ["id"; "user_id"; "device_name"; "device_type"; "battery_level";
   "is_connected"; "last_connected"; "created_at"].

(** The committed tables. *)
Record DB : Type := mkDB {
  devices : gmap string Device;
  readings : list NoiseReading
}.

(** The device with primary key [id] that [user_id] owns. *)
Definition find_device (db : DB) (id user_id : string) : option Device :=
  match devices db !! id with
  | Some d =>
      if String.eqb (dev_id d) id && String.eqb (dev_user_id d) user_id
      then Some d else None
  | None => None
  end.

(** The unit of work [db.session]: attribute assignments to loaded devices
    and the rows passed to [db.session.add], all pending until [commit]. *)
Record Session : Type := mkSession {
  dirty : gmap string Device;
  new_devices : list Device;
  new_readings : list NoiseReading
}.

Definition empty_session : Session :=
  {| dirty := ∅; new_devices := []; new_readings := [] |}.

(** ** Socket.IO emissions *)

Inductive target : Type :=
| ToAll                  (* [socketio.emit] without [room]: every client *)
| ToRoom (room : string) (* [room=...] *)
| ToSid (sid : string).  (* [emit] inside an event handler: the sender *)

(** The payload of an emission or the JSON body of a response, by the rows
    and values its fields are read from. *)
Inductive payload : Type :=
| PConnected (user_id : string)
| PDeviceDisconnected (d : Device)
| PNoiseReading (r : NoiseReading)
| PDevice (d : Device)
| PDeviceUpdate (deviceId : string) (batteryLevel : value) (lastUpdate : Z)
| PError (e : exn)
| PMessage (msg : string).

Record Emit : Type := mkEmit {
  event : string;
  body : payload;
  dest : target
}.

(** ** The handler monad: state and exceptions *)

Record St : Type := mkSt {
  st_db : DB;
  st_session : Session;
  st_emitted : list Emit
}.

Definition M (A : Type) : Type := St -> result A * St.

#[global] Instance M_ret : MRet M := fun A a st => (Ok a, st).

#[global] Instance M_bind : MBind M := fun A B f m st =>
  match m st with
  | (Ok a, st') => f a st'
  | (Raise e, st') => (Raise e, st')
  end.

Definition raise {A : Type} (e : exn) : M A := fun st => (Raise e, st).

Definition lift {A : Type} (r : result A) : M A := fun st => (r, st).

(** [try: body except Exception as e: handler e] *)
Definition try_except {A : Type} (body : M A) (handler : exn -> M A) : M A :=
  fun st =>
    match body st with
    | (Ok a, st') => (Ok a, st')
    | (Raise e, st') => handler e st'
    end.

(** What a request brings with it: the Flask-Login identity, the Socket.IO
    session id of the sender, and what the outside world answers during the
    request (the clock, the next UUID, whether the database takes the
    commit). *)
Record Request : Type := mkRequest {
  current_user : option string;
  sid : string;
  utcnow : Z;
  uuid4 : string;
  commit_ok : bool
}.

Definition is_authenticated (rq : Request) : bool :=
  match current_user rq with Some _ => true | None => false end.

(** ** The unit of work *)

(** The declarative constructor: [TypeError] on the first keyword that is not
    an attribute of the class, else the object. *)
Definition declarative_constructor {A : Type} (cls : string)
    (columns kwargs : list string) (obj : A) : M A :=
  match find (fun k => negb (existsb (String.eqb k) columns)) kwargs with
  | Some k => raise (TypeError (k ++ " is an invalid keyword argument for " ++ cls))
  | None => mret obj
  end.

Definition session_add_reading (r : NoiseReading) : M unit := fun st =>
  let s := st_session st in
  (Ok tt, mkSt (st_db st)
            (mkSession (dirty s) (new_devices s) (new_readings s ++ [r]))
            (st_emitted st)).

Definition session_add_device (d : Device) : M unit := fun st =>
  let s := st_session st in
  (Ok tt, mkSt (st_db st)
            (mkSession (dirty s) (new_devices s ++ [d]) (new_readings s))
            (st_emitted st)).

(** An attribute assignment to a loaded device: the object is now dirty. *)
Definition session_set_device (d : Device) : M unit := fun st =>
  let s := st_session st in
  (Ok tt, mkSt (st_db st)
            (mkSession (<[dev_id d := d]> (dirty s)) (new_devices s) (new_readings s))
            (st_emitted st)).

(** The tables after the pending changes are written. *)
Definition flush (db : DB) (s : Session) : DB :=
  {| devices := foldr (fun d m => <[dev_id d := d]> m) (dirty s ∪ devices db)
                  (new_devices s);
     readings := readings db ++ new_readings s |}.

(** A new row whose primary key is taken violates the key constraint. *)
Definition device_id_taken (db : DB) (id : string) : bool :=
  bool_decide (is_Some (devices db !! id)).

Definition reading_id_taken (db : DB) (id : string) : bool :=
  existsb (fun r => String.eqb id (nr_id r)) (readings db).

Definition key_conflict (db : DB) (s : Session) : bool :=
  existsb (fun d => device_id_taken db (dev_id d)) (new_devices s)
  || existsb (fun r => reading_id_taken db (nr_id r)) (new_readings s).

(** [db.session.commit()]: all pending changes or none. On failure the
    session keeps its pending state until [rollback]. *)
Definition commit (rq : Request) : M unit := fun st =>
  if commit_ok rq && negb (key_conflict (st_db st) (st_session st)) then
    (Ok tt, mkSt (flush (st_db st) (st_session st)) empty_session (st_emitted st))
  else (Raise DatabaseError, st).

(** [db.session.rollback()] *)
Definition rollback : M unit := fun st =>
  (Ok tt, mkSt (st_db st) empty_session (st_emitted st)).

(** [Device.query.filter_by(id=..., user_id=...).first()]: the row with that
    primary key, if its [id] and [user_id] columns have the values asked. *)
Definition Device_query (id user_id : string) : M (option Device) := fun st =>
  (Ok (find_device (st_db st) id user_id), st).

(** [socketio.emit] and [emit] *)
Definition emit (ev : string) (p : payload) (to : target) : M unit := fun st =>
  (Ok tt, mkSt (st_db st) (st_session st) (st_emitted st ++ [mkEmit ev p to])).

(** ** HTTP plumbing *)

Inductive response : Type :=
| Response (status : Z) (json : payload).

(** [login_required_api], lines 105-111. *)
Definition login_required_api (rq : Request) (view : string -> M response) : M response :=
  match current_user rq with
  | None => mret (Response 401 (PMessage "Unauthorized"))
  | Some user_id => view user_id
  end.

(** Flask's dispatch of a view: an exception that leaves the view is answered
    with status 500 and the pending changes of the request are dropped
    ([internal_error], lines 655-661). *)
Definition dispatch (view : M response) : M response :=
  try_except view (fun e => rollback;; mret (Response 500 (PError e))).

(** [k in data]: a key of a dict, an element of a list, a substring of a
    string. *)
Fixpoint is_substring (k s : string) : bool :=
  String.prefix k s ||
  match s with
  | EmptyString => false
  | String _ s' => is_substring k s'
  end.

Definition py_contains (k : string) (data : value) : result bool :=
  match data with
  | VDict d => Ok (dict_has k d)
  | VList l => Ok (existsb (fun v => match v with VStr s => String.eqb s k | _ => false end) l)
  | VStr s => Ok (is_substring k s)
  | _ => Raise (TypeError "not iterable")
  end.

(** The query of [handle_device_update], whose [deviceId] is any JSON value.
    Device ids are the strings [str(uuid.uuid4())]: a number or a boolean is
    bound as an SQL number and matches none; a list or a dict cannot be bound
    to the statement. *)
Definition Device_query_by (device_id : value) (user_id : string) : M (option Device) :=
  match device_id with
  | VStr id => Device_query id user_id
  | VList _ | VDict _ => raise DatabaseError
  | _ => mret None
  end.

Section Handlers.

Variable float_of_str : string -> option spec_float.

(** ** Request handlers *)

(** [disconnect_bluetooth_device], lines 233-253. *)
Definition disconnect_bluetooth_device (rq : Request) (device_id : string) : M response :=
  login_required_api rq (fun user_id =>
    try_except
      (device ← Device_query device_id user_id;
       match device with
       | None => mret (Response 404 (PMessage "Device not found"))
       | Some device =>
           let device := set_is_connected device (VBool false) in
           session_set_device device;;
           let device := set_last_connected device (utcnow rq) in
           session_set_device device;;
           commit rq;;
           emit "device_disconnected" (PDeviceDisconnected device) (ToRoom user_id);;
           mret (Response 200 (PMessage "Device disconnected successfully"))
       end)
      (fun e => rollback;; mret (Response 500 (PError e)))).

(** [create_noise_reading], lines 256-286. *)
Definition create_noise_reading (rq : Request) (data : value) : M response :=
  login_required_api rq (fun user_id =>
    raw ← lift (py_getitem data "noiseLevel");
    level ← lift (py_float float_of_str raw);
    cat ← lift (py_getitem data "category");
    loc ← lift (py_get data "location" (VStr "Real-time monitoring"));
    reading ← declarative_constructor "NoiseReading" NoiseReading_columns
                ["user_id"; "noise_level"; "category"; "location"]
                (mkNoiseReading (uuid4 rq) user_id level cat (utcnow rq) loc);
    session_add_reading reading;;
    commit rq;;
    emit "noise_reading" (PNoiseReading reading) ToAll;;
    mret (Response 200 (PNoiseReading reading))).

(** [create_device], lines 323-355. *)
Definition create_device (rq : Request) (data : value) : M response :=
  login_required_api rq (fun user_id =>
    name ← lift (py_getitem data "deviceName");
    type ← lift (py_getitem data "deviceType");
    battery ← lift (py_getitem data "batteryLevel");
    device ← declarative_constructor "Device" Device_columns
               ["user_id"; "device_name"; "device_type"; "battery_level"]
               (mkDevice (uuid4 rq) user_id name type battery (VBool true)
                  (utcnow rq) (utcnow rq));
    session_add_device device;;
    commit rq;;
    emit "device_status" (PDevice device) ToAll;;
    mret (Response 200 (PDevice device))).

(** [update_device_status], lines 371-403. *)
Definition update_device_status (rq : Request) (device_id : string) (data : value)
    : M response :=
  login_required_api rq (fun user_id =>
    device ← Device_query device_id user_id;
    match device with
    | None => mret (Response 404 (PMessage "Device not found"))
    | Some device =>
        connected ← lift (py_get data "isConnected" (is_connected device));
        let device := set_is_connected device connected in
        session_set_device device;;
        has_battery ← lift (py_contains "batteryLevel" data);
        device ← (if has_battery : bool then
                    battery ← lift (py_getitem data "batteryLevel");
                    let device := set_battery_level device battery in
                    session_set_device device;; mret device
                  else mret device);
        commit rq;;
        emit "device_status" (PDevice device) ToAll;;
        mret (Response 200 (PDevice device))
    end).

(** ** Socket.IO event handlers *)

(** [handle_device_update], lines 589-631. The two evaluations of
    [float(data['noiseLevel'])] give the same float; the reading is built
    with the keywords [user_id], [device_id], [noise_level], [category]. *)
Definition handle_device_update (rq : Request) (data : value) : M unit :=
  match current_user rq with
  | None => mret tt
  | Some user_id =>
      try_except
        (device_id ← lift (py_get data "deviceId" VNone);
         if negb (truthy device_id) then mret tt else
         device ← Device_query_by device_id user_id;
         match device with
         | None => mret tt
         | Some device =>
             has_battery ← lift (py_contains "batteryLevel" data);
             device ← (if has_battery : bool then
                         battery ← lift (py_getitem data "batteryLevel");
                         let device := set_battery_level device battery in
                         session_set_device device;; mret device
                       else mret device);
             has_noise ← lift (py_contains "noiseLevel" data);
             (if has_noise : bool then
                raw ← lift (py_getitem data "noiseLevel");
                level ← lift (py_float float_of_str raw);
                reading ← declarative_constructor "NoiseReading" NoiseReading_columns
                            ["user_id"; "device_id"; "noise_level"; "category"]
                            (mkNoiseReading (uuid4 rq) user_id level
                               (VStr (get_noise_category level)) (utcnow rq) VNone);
                session_add_reading reading
              else mret tt);;
             commit rq;;
             emit "device_status"
               (PDeviceUpdate (dev_id device) (battery_level device) (utcnow rq))
               (ToRoom user_id)
         end)
        (fun e => rollback;; emit "error" (PError e) (ToSid (sid rq)))
  end.

End Handlers.

(** ** Rooms *)

(** The Socket.IO server's view of the live connections: the connected
    session ids and the members of each room. *)
Record Hub : Type := mkHub {
  clients : gset string;
  rooms : gmap string (gset string)
}.

Definition members (h : Hub) (room : string) : gset string :=
  default ∅ (rooms h !! room).

Definition join_room (room sid : string) (h : Hub) : Hub :=
  mkHub (clients h) (<[room := {[sid]} ∪ members h room]> (rooms h)).

Definition leave_room (room sid : string) (h : Hub) : Hub :=
  mkHub (clients h) (<[room := members h room ∖ {[sid]}]> (rooms h)).

(** [handle_connect], lines 573-582: the server has registered the
    connection; a handler that returns [False] has it dropped again. *)
Definition handle_connect (rq : Request) (h : Hub) : Hub * list Emit :=
  match current_user rq with
  | Some user_id =>
      (join_room user_id (sid rq) (mkHub ({[sid rq]} ∪ clients h) (rooms h)),
       [mkEmit "connected" (PConnected user_id) (ToSid (sid rq))])
  | None => (h, [])
  end.

(** [handle_disconnect], lines 584-587; after the handler the server drops
    the connection from its clients and from every room. *)
Definition handle_disconnect (rq : Request) (h : Hub) : Hub :=
  let h := match current_user rq with
           | Some user_id => leave_room user_id (sid rq) h
           | None => h
           end in
  mkHub (clients h ∖ {[sid rq]}) ((fun room => room ∖ {[sid rq]}) <$> rooms h).

(** The connections an emission is delivered to. *)
Definition recipients (h : Hub) (to : target) : gset string :=
  match to with
  | ToAll => clients h
  | ToRoom room => members h room
  | ToSid sid => {[sid]}
  end.

Definition observes (h : Hub) (sid : string) (e : Emit) : bool :=
  bool_decide (sid ∈ recipients h (dest e)).

(** ** Running a handler *)

Definition initial (db : DB) : St := mkSt db empty_session [].

Definition run {A : Type} (m : M A) (db : DB) : result A * St := m (initial db).

(** ** Outcomes of the handlers

    The final states a handler can reach, as the properties below speak of
    them. *)

(** [d.get(k, default)] on the bindings of a dict. *)
Definition dict_get_default (k : string) (d : list (string * value)) (default : value)
    : value :=
  match dict_get k d with Some v => v | None => default end.

(** A key of a JSON object; nothing is a key of another JSON value. *)
Definition has_key (k : string) (data : value) : bool :=
  match data with VDict d => dict_has k d | _ => false end.

(** The device a [device_update] message targets, if the sender owns it. *)
Definition targeted_device (rq : Request) (data : value) (db : DB) : option Device :=
  match current_user rq, data with
  | Some user_id, VDict d =>
      match dict_get "deviceId" d with
      | Some (VStr id) => if String.eqb id "" then None else find_device db id user_id
      | _ => None
      end
  | _, _ => None
  end.

(** The device after the patch of a [device_update] message. *)
Definition device_patch (dev : Device) (d : list (string * value)) : Device :=
  match dict_get "batteryLevel" d with
  | Some b => set_battery_level dev b
  | None => dev
  end.

(** The device after the patch of [update_device_status]. *)
Definition status_patch (dev : Device) (d : list (string * value)) : Device :=
  device_patch
    (set_is_connected dev (dict_get_default "isConnected" d (is_connected dev))) d.

(** The attributes no patch names. *)
Definition same_identity (d d' : Device) : Prop :=
  dev_id d' = dev_id d /\ dev_user_id d' = dev_user_id d /\
  device_name d' = device_name d /\ device_type d' = device_type d /\
  last_connected d' = last_connected d /\ created_at d' = created_at d.

(** What a patch may do to the tables: no reading is written, no device
    appears or disappears, and a device keeps every attribute the patch does
    not name; devices other than [id] are left as they are. *)
Definition patch_frame (id : string) (data : value) (db db' : DB) : Prop :=
  readings db' = readings db /\
  forall id' : string,
    match devices db !! id', devices db' !! id' with
    | Some dev, Some dev' =>
        same_identity dev dev' /\
        (has_key "batteryLevel" data = false -> battery_level dev' = battery_level dev) /\
        (has_key "isConnected" data = false -> is_connected dev' = is_connected dev) /\
        (id' <> id -> dev' = dev)
    | None, None => True
    | _, _ => False
    end.

(** What a patch with [batteryLevel] alone does to device [id], that was
    [dev]: the battery level is the patch's once the commit went through,
    and nothing else differs. *)
Definition battery_patch_effect (committed : bool) (id : string) (dev : Device)
    (b : value) (db db' : DB) : Prop :=
  readings db' = readings db /\
  (forall id' : string, id' <> id -> devices db' !! id' = devices db !! id') /\
  exists dev' : Device,
    devices db' !! id = Some dev' /\
    same_identity dev dev' /\
    is_connected dev' = is_connected dev /\
    battery_level dev' = (if committed then b else battery_level dev).

(** [handle_device_update] ends in one of three ways. *)
Inductive update_outcome (rq : Request) (data : value) (db : DB) : St -> Prop :=
| update_dropped :
    targeted_device rq data db = None ->
    update_outcome rq data db (initial db)
| update_failed (e : exn) :
    update_outcome rq data db
      (mkSt db empty_session [mkEmit "error" (PError e) (ToSid (sid rq))])
| update_patched (user_id : string) (d : list (string * value)) (dev : Device) :
    current_user rq = Some user_id -> data = VDict d ->
    targeted_device rq data db = Some dev ->
    dict_has "noiseLevel" d = false -> commit_ok rq = true ->
    update_outcome rq data db
      (mkSt (mkDB (<[dev_id dev := device_patch dev d]> (devices db)) (readings db))
         empty_session
         [mkEmit "device_status"
            (PDeviceUpdate (dev_id dev) (battery_level (device_patch dev d)) (utcnow rq))
            (ToRoom user_id)]).

(** ** Values the columns and the statements take as they are *)

(** An integer of 64 bits, as SQLite stores and binds integers. *)
Definition int64 (n : Z) : bool := (- 2 ^ 63 <=? n)%Z && (n <? 2 ^ 63)%Z.

(** The values the INTEGER column [battery_level] holds as they are given:
    null and the integers of 64 bits. Other JSON values are converted by the
    column or refused by the database. *)
Definition integer_column_value (v : value) : bool :=
  match v with
  | VNone => true
  | VInt n => int64 n
  | _ => false
  end.


(** ** Sample data

    Identity [U] owns device [D]; identity [V] owns device [E]. The requests
    come from [U] on connection [s1] at time 200. *)

Module Sample.

Definition D : Device :=
  mkDevice "D" "U" (VStr "Buds") (VStr "earbuds") (VInt 80) (VBool true) 100 50.

Definition E : Device :=
  mkDevice "E" "V" (VStr "Cans") (VStr "headphones") (VInt 60) (VBool true) 120 60.

Definition db : DB := mkDB (<["D" := D]> (<["E" := E]> ∅)) [].

Definition request (commit_ok : bool) : Request :=
  mkRequest (Some "U") "s1" 200 "R1" commit_ok.

Definition request_of (user_id sid : string) : Request :=
  mkRequest (Some user_id) sid 200 "R1" true.

(** A parser that knows no literal. *)
Definition no_literal (s : string) : option spec_float := None.

Definition hub : Hub := mkHub ∅ ∅.

End Sample.

(** ** The remaining views of the devices and the readings *)

(** What a view answers: the JSON it builds from [a], or a refusal. *)
Inductive answer (A : Type) : Type :=
| Answer (a : A)
| Refusal (status : Z) (msg : string).
Arguments Answer {A} a.
Arguments Refusal {A} status msg.

(** [login_required_api] around a view that answers with rows. *)
Definition login_required_answer {A : Type} (rq : Request)
    (view : string -> M (answer A)) : M (answer A) :=
  match current_user rq with
  | None => mret (Refusal 401 "Unauthorized")
  | Some user_id => view user_id
  end.

(** Flask's dispatch of such a view (see [dispatch]). *)
Definition dispatch_answer {A : Type} (view : M (answer A)) : M (answer A) :=
  try_except view (fun e => rollback;; mret (Refusal 500 "Internal server error")).

(** [connect_bluetooth_device], lines 198-231. The JSON of the answer is read
    from the new row. *)
Definition connect_bluetooth_device (rq : Request) (data : value) : M response :=
  login_required_api rq (fun user_id =>
    try_except
      (name ← (if truthy data then lift (py_get data "deviceName" VNone) else mret VNone);
       if negb (truthy name) then mret (Response 400 (PMessage "Device name is required"))
       else
         name ← lift (py_getitem data "deviceName");
         type ← lift (py_get data "deviceType" (VStr "earbuds"));
         battery ← lift (py_get data "batteryLevel" (VInt 100));
         device ← declarative_constructor "Device" Device_columns
                    ["user_id"; "device_name"; "device_type"; "battery_level";
                     "is_connected"]
                    (mkDevice (uuid4 rq) user_id name type battery (VBool true)
                       (utcnow rq) (utcnow rq));
         session_add_device device;;
         commit rq;;
         emit "device_connected" (PDevice device) (ToRoom user_id);;
         mret (Response 200 (PDevice device)))
      (fun e => rollback;; mret (Response 500 (PError e)))).

(** [Device.query.filter_by(user_id=...).all()]; the order of the rows is the
    database's. *)
Definition Device_query_all (user_id : string) : M (list Device) := fun st =>
  (Ok (filter (fun d => dev_user_id d = user_id)
         (map snd (map_to_list (devices (st_db st))))), st).

(** [get_devices], lines 357-369. *)
Definition get_devices (rq : Request) : M (answer (list Device)) :=
  login_required_answer rq (fun user_id =>
    devices ← Device_query_all user_id;
    mret (Answer devices)).

(** [get_bluetooth_devices], lines 182-196. *)
Definition get_bluetooth_devices (rq : Request) : M (answer (list Device)) :=
  login_required_answer rq (fun user_id =>
    try_except
      (devices ← Device_query_all user_id;
       mret (Answer devices))
      (fun e => mret (Refusal 500 "error"))).

(** The filter of the reading queries: the owner and, where the query has
    them, the bounds on the time stamp (both inclusive). *)
Definition reading_selected (user_id : string) (bounds : option (Z * Z))
    (r : NoiseReading) : bool :=
  String.eqb (nr_user_id r) user_id &&
  match bounds with
  | Some (lo, hi) => (lo <=? timestamp r)%Z && (timestamp r <=? hi)%Z
  | None => true
  end.

(** [NoiseReading.query.filter(...)] *)
Definition NoiseReading_query (user_id : string) (bounds : option (Z * Z))
    : M (list NoiseReading) := fun st =>
  (Ok (List.filter (reading_selected user_id bounds) (readings (st_db st))), st).

(** [.order_by(NoiseReading.timestamp.desc())]; rows of one instant come in
    the order the sort leaves them. *)
Definition not_older (r1 r2 : NoiseReading) : Prop := timestamp r2 <= timestamp r1.

#[global] Instance not_older_dec : RelDecision not_older :=
  fun r1 r2 => decide (timestamp r2 <= timestamp r1).

Definition newest_first (rs : list NoiseReading) : list NoiseReading :=
  merge_sort not_older rs.

(** [.limit(n)] for an integer [n] of 64 bits: SQLite puts no bound for a
    negative [n]. *)
Definition sql_limit {A : Type} (n : Z) (rows : list A) : list A :=
  if (n <? 0)%Z then rows else take (Z.to_nat n) rows.

(** [get_noise_readings], lines 288-301; [limit] is the query argument as
    [request.args.get('limit', 50, type=int)] gives it. The statement takes
    an integer of 64 bits; a larger one cannot be bound and the query
    raises. *)
Definition get_noise_readings (rq : Request) (limit : Z)
    : M (answer (list NoiseReading)) :=
  login_required_answer rq (fun user_id =>
    if int64 limit then
      rows ← NoiseReading_query user_id None;
      mret (Answer (sql_limit limit (newest_first rows)))
    else raise OverflowError).

(** [get_noise_readings_range], lines 303-321; each date is given as
    [datetime.fromisoformat] returns it or raises. *)
Definition get_noise_readings_range (rq : Request) (startDate endDate : result Z)
    : M (answer (list NoiseReading)) :=
  login_required_answer rq (fun user_id =>
    start_date ← lift startDate;
    end_date ← lift endDate;
    rows ← NoiseReading_query user_id (Some (start_date, end_date));
    mret (Answer (newest_first rows))).

(** Instants are microseconds, the resolution of [datetime]. *)
Definition microseconds_per_day : Z := 86400000000.

(** [datetime.combine(today, datetime.min.time())] and
    [datetime.combine(today, datetime.max.time())] for the day of [now]. *)
Definition start_of_day (now : Z) : Z := now - now mod microseconds_per_day.
Definition end_of_day (now : Z) : Z := start_of_day now + (microseconds_per_day - 1).

Record ExposureStats : Type := mkExposureStats {
  totalSafeTime : Z;
  totalModerateTime : Z;
  totalHarmfulTime : Z
}.

(** [r.category == label] *)
Definition has_category (label : string) (r : NoiseReading) : bool :=
  match category r with
  | VStr s => String.eqb s label
  | _ => false
  end.

(** [sum(1 for r in readings if r.category == label) * 5] *)
Definition minutes_in (label : string) (rs : list NoiseReading) : Z :=
  Z.of_nat (length (List.filter (has_category label) rs)) * 5.

(** [get_today_exposure_stats], lines 456-477; [now] is [datetime.now()]. *)
Definition get_today_exposure_stats (rq : Request) (now : Z) : M (answer ExposureStats) :=
  login_required_answer rq (fun user_id =>
    rows ← NoiseReading_query user_id (Some (start_of_day now, end_of_day now));
    mret (Answer (mkExposureStats (minutes_in "safe" rows) (minutes_in "moderate" rows)
                    (minutes_in "harmful" rows)))).

(** ** Sequences of requests *)

(** A call of one of the views or of the [device_update] handler. *)
Inductive api_call : Type :=
| CreateNoiseReading (data : value)
| CreateDevice (data : value)
| UpdateDeviceStatus (device_id : string) (data : value)
| ConnectBluetoothDevice (data : value)
| DisconnectBluetoothDevice (device_id : string)
| DeviceUpdate (data : value).

Section Serve.

Variable float_of_str : string -> option spec_float.

(** The state a call ends in, from committed tables and a fresh session. *)
Definition serve (rq : Request) (c : api_call) (db : DB) : St :=
  match c with
  | CreateNoiseReading data =>
      snd (run (dispatch (create_noise_reading float_of_str rq data)) db)
  | CreateDevice data => snd (run (dispatch (create_device rq data)) db)
  | UpdateDeviceStatus id data => snd (run (dispatch (update_device_status rq id data)) db)
  | ConnectBluetoothDevice data => snd (run (dispatch (connect_bluetooth_device rq data)) db)
  | DisconnectBluetoothDevice id =>
      snd (run (dispatch (disconnect_bluetooth_device rq id)) db)
  | DeviceUpdate data => snd (run (handle_device_update float_of_str rq data) db)
  end.

(** The tables and the emissions after a sequence of calls, one after the
    other. *)
Fixpoint serve_all (calls : list (Request * api_call)) (db : DB) : DB * list Emit :=
  match calls with
  | [] => (db, [])
  | (rq, c) :: calls' =>
      let st := serve rq c db in
      let '(db', emitted) := serve_all calls' (st_db st) in
      (db', (st_emitted st ++ emitted)%list)
  end.

End Serve.

(** What one call of identity [user_id] can do to the tables. *)
Inductive db_step (user_id : string) (db : DB) : DB -> Prop :=
| step_none : db_step user_id db db
| step_patch (id : string) (dev dev' : Device) :
    find_device db id user_id = Some dev ->
    dev_id dev' = id -> dev_user_id dev' = user_id ->
    device_name dev' = device_name dev -> device_type dev' = device_type dev ->
    created_at dev' = created_at dev ->
    db_step user_id db (mkDB (<[id := dev']> (devices db)) (readings db))
| step_new_device (dev : Device) :
    devices db !! dev_id dev = None -> dev_user_id dev = user_id ->
    db_step user_id db (mkDB (<[dev_id dev := dev]> (devices db)) (readings db))
| step_new_reading (r : NoiseReading) :
    reading_id_taken db (nr_id r) = false -> nr_user_id r = user_id ->
    db_step user_id db (mkDB (devices db) (readings db ++ [r])%list).

(** Primary keys: a device is stored under its [id], and no two readings
    share an [id]. *)
Definition keys_consistent (db : DB) : Prop :=
  (forall id dev, devices db !! id = Some dev -> dev_id dev = id) /\
  NoDup (map nr_id (readings db)).

(** ** Sequences of connections *)

Inductive conn_event : Type :=
| Connects (rq : Request)
| Disconnects (rq : Request).

Definition conn_request (ev : conn_event) : Request :=
  match ev with Connects rq | Disconnects rq => rq end.

Definition hub_step (h : Hub) (ev : conn_event) : Hub :=
  match ev with
  | Connects rq => fst (handle_connect rq h)
  | Disconnects rq => handle_disconnect rq h
  end.

(** The rooms after a sequence of connections and disconnections, from a
    server without clients. *)
Definition hub_after (evs : list conn_event) : Hub :=
  fold_left hub_step evs (mkHub ∅ ∅).

(** Each connection carries the identity of its login session: [owner]
    gives, for a session id, the identity every event on it comes with. *)
Definition respects (owner : string -> option string) (evs : list conn_event) : Prop :=
  Forall (fun ev => current_user (conn_request ev) = owner (sid (conn_request ev))) evs.

(** The tiers of the classifier, by severity. *)
Definition severity (label : string) : Z :=
  if String.eqb label "safe" then 0
  else if String.eqb label "moderate" then 1
  else 2.

(** An emission that carries a row as the tables [db] hold it. *)
Definition emission_committed (db : DB) (e : Emit) : Prop :=
  match body e with
  | PNoiseReading r => In r (readings db)
  | PDevice d | PDeviceDisconnected d => devices db !! dev_id d = Some d
  | PDeviceUpdate id b _ => exists d, devices db !! id = Some d /\ battery_level d = b
  | PError _ | PConnected _ | PMessage _ => False
  end.

(** The calls whose emission is not given a room. *)
Definition broadcasts (c : api_call) : bool :=
  match c with
  | CreateNoiseReading _ | CreateDevice _ | UpdateDeviceStatus _ _ => true
  | ConnectBluetoothDevice _ | DisconnectBluetoothDevice _ | DeviceUpdate _ => false
  end.

(** The ways a call ends: without a trace, with an [error] event to the
    sender, or with a commit and the one event that tells of it. *)
Inductive call_outcome (rq : Request) (c : api_call) (db : DB) : St -> Prop :=
| call_quiet :
    call_outcome rq c db (initial db)
| call_error (e : exn) :
    is_Some (current_user rq) -> broadcasts c = false ->
    call_outcome rq c db
      (mkSt db empty_session [mkEmit "error" (PError e) (ToSid (sid rq))])
| call_commit (user_id : string) (db' : DB) (e : Emit) :
    current_user rq = Some user_id -> commit_ok rq = true ->
    db_step user_id db db' -> emission_committed db' e ->
    dest e = (if broadcasts c then ToAll else ToRoom user_id) ->
    call_outcome rq c db (mkSt db' empty_session [e]).

(** ** A scenario

    The sample tables with four readings, a few calls of [U] and of a client
    without identity, and the connections [s1] of [U] and [s2] of [V]. *)

Module Scenario.

Definition r1 : NoiseReading :=
  mkNoiseReading "N1" "U" Float.f70_0 (VStr "safe") 1000 VNone.
Definition r2 : NoiseReading :=
  mkNoiseReading "N2" "U" Float.f90_0 (VStr "harmful") 2000 VNone.
Definition r3 : NoiseReading :=
  mkNoiseReading "N3" "V" Float.f85_0 (VStr "moderate") 1500 VNone.
Definition r4 : NoiseReading :=
  mkNoiseReading "N4" "U" Float.f85_1 (VStr "loud") 2500 VNone.

Definition db : DB := mkDB (devices Sample.db) [r1; r2; r3; r4].

Definition anonymous : Request := mkRequest None "s0" 300 "R2" true.

Definition calls : list (Request * api_call) :=
  [ (Sample.request true, UpdateDeviceStatus "D" (VDict [("batteryLevel", VInt 42)]));
    (Sample.request true,
       CreateNoiseReading (VDict [("noiseLevel", VInt 90); ("category", VStr "harmful")]));
    (anonymous,
       CreateDevice (VDict [("deviceName", VStr "X"); ("deviceType", VStr "x");
                            ("batteryLevel", VInt 1)]));
    (Sample.request true,
       DeviceUpdate (VDict [("deviceId", VStr "E"); ("batteryLevel", VInt 0)])) ].

Definition owner (sid : string) : option string :=
  if String.eqb sid "s1" then Some "U"
  else if String.eqb sid "s2" then Some "V"
  else None.

Definition connections : list conn_event :=
  [ Connects (Sample.request_of "U" "s1"); Connects (Sample.request_of "V" "s2") ].


End Scenario.

(** * Properties *)

(** ** The order of binary64 values *)

Section FloatOrder.

Import Float.

Lemma digits2_pos_size (m : positive) : digits2_pos m = Pos.size m.
Proof. induction m as [m IH|m IH|]; simpl; by rewrite ?IH. Qed.

(** The mantissa of a binary64 value has at most 53 bits, its exponent is at
    least -1074, and above that exponent the mantissa has exactly 53 bits. *)
Lemma bounded_inv (m : positive) (e : Z) :
  bounded prec emax m e = true ->
  -1074 <= e <= 971 /\ Zpos m < 2 ^ 53 /\ (-1074 < e -> 2 ^ 52 <= Zpos m).
Proof.
  unfold bounded, canonical_mantissa, fexp, SpecFloat.emin, prec, emax.
  rewrite andb_true_iff, Z.eqb_eq, Z.leb_le, digits2_pos_size.
  intros [Hc He].
  pose proof (Pos.size_gt m) as Hgt. pose proof (Pos.size_le m) as Hle.
  assert (Hs : Zpos (Pos.size m) <= 53) by lia.
  split; [lia|]. split.
  - apply Z.lt_le_trans with (2 ^ Zpos (Pos.size m)).
    + rewrite <- Pos2Z.inj_pow. lia.
    + apply Z.pow_le_mono_r; lia.
  - intros Hn. assert (Heq : Pos.size m = 53%positive) by lia.
    rewrite Heq in Hle. 
    assert (2 ^ 53 <= 2 * Zpos m) by (change (2 ^ 53) with (Zpos (2 ^ 53)); lia).
    change (2 ^ 53) with (2 * 2 ^ 52) in H. lia.
Qed.

Lemma pow2_split (a b : Z) : 0 <= a <= b -> 2 ^ b = 2 ^ a * 2 ^ (b - a).
Proof. intros H. rewrite <- Z.pow_add_r by lia. f_equal. lia. Qed.

(** [SFleb] against a normal positive constant decides the order of the
    scaled integers. *)
Lemma SFleb_normal_const (s : bool) (m : positive) (e : Z) (mc : positive) (ec : Z) :
  bounded prec emax m e = true ->
  2 ^ 52 <= Zpos mc < 2 ^ 53 -> -1074 <= ec ->
  SFleb (S754_finite s m e) (S754_finite false mc ec) = true <->
  scaled s m e <= scaled false mc ec.
Proof.
  intros Hb Hmc Hec. destruct (bounded_inv m e Hb) as (He & Hm & Hn).
  unfold SFleb, SFcompare, scaled. simpl cond_Zopp.
  assert (Hp : forall k, 0 <= k -> 0 < 2 ^ k) by (intros; apply Z.pow_pos_nonneg; lia).
  destruct s; simpl cond_Zopp.
  - split; [intros _|done].
    pose proof (Hp (e + 1074) ltac:(lia)). pose proof (Hp (ec + 1074) ltac:(lia)). nia.
  - destruct (Z.compare_spec e ec) as [->|Hlt|Hgt].
    + rewrite Pos.compare_cont_spec. simpl.
      pose proof (Hp (ec + 1074) ltac:(lia)) as Hk.
      rewrite <- Z.mul_le_mono_pos_r by done.
      change (Zpos m <= Zpos mc) with (m <= mc)%positive.
      rewrite Pos.le_lteq, <- Pos.compare_lt_iff, <- Pos.compare_eq_iff.
      destruct (m ?= mc)%positive; simpl; intuition congruence.
    + split; [intros _|done].
      rewrite (pow2_split (e + 1074) (ec + 1074)) by lia.
      pose proof (Hp (e + 1074) ltac:(lia)) as Hk.
      assert (2 <= 2 ^ (ec + 1074 - (e + 1074))).
      { change 2 with (2 ^ 1) at 1. apply Z.pow_le_mono_r; lia. }
      change (2 ^ 53) with (2 * 2 ^ 52) in Hm.
      set (K := 2 ^ (e + 1074)) in *. set (D := 2 ^ (ec + 1074 - (e + 1074))) in *.
      assert (Zpos m <= Zpos mc * D) by nia.
      rewrite (Z.mul_comm K D), Z.mul_assoc. apply Z.mul_le_mono_nonneg_r; lia.
    + split; [done|]. intros Hle. exfalso.
      rewrite (pow2_split (ec + 1074) (e + 1074)) in Hle by lia.
      pose proof (Hp (ec + 1074) ltac:(lia)) as Hk.
      assert (2 <= 2 ^ (e + 1074 - (ec + 1074))).
      { change 2 with (2 ^ 1) at 1. apply Z.pow_le_mono_r; lia. }
      specialize (Hn ltac:(lia)).
      change (2 ^ 53) with (2 * 2 ^ 52) in Hmc.
      set (K := 2 ^ (ec + 1074)) in *. set (D := 2 ^ (e + 1074 - (ec + 1074))) in *.
      assert (Zpos mc < Zpos m * D) by nia.
      rewrite (Z.mul_comm K D), Z.mul_assoc in Hle.
      apply Z.mul_le_mono_pos_r in Hle; lia.
Qed.

(** The rational value and the scaled integer. *)
Lemma to_Q_scaled (s : bool) (m : positive) (e : Z) (q : Q) :
  -1074 <= e -> to_Q (S754_finite s m e) = Some q ->
  (q == inject_Z (scaled s m e) * 2 ^ (-1074))%Q.
Proof.
  intros He [= <-]. unfold scaled.
  rewrite inject_Z_mult, Zpower_Qpower by lia.
  rewrite <- Qmult_assoc. change (inject_Z 2) with 2%Q.
  rewrite <- Qpower_plus by done.
  by replace (e + 1074 + -1074) with e by lia.
Qed.

Lemma Qle_scaled (a b : Z) :
  (inject_Z a * 2 ^ (-1074) <= inject_Z b * 2 ^ (-1074))%Q <-> a <= b.
Proof.
  rewrite Zle_Qle. apply Qmult_le_r. by apply Qpower_0_lt.
Qed.

Lemma Qlt_scaled (a b : Z) :
  (inject_Z a * 2 ^ (-1074) < inject_Z b * 2 ^ (-1074))%Q <-> a < b.
Proof.
  rewrite Zlt_Qlt. apply Qmult_lt_r. by apply Qpower_0_lt.
Qed.

Lemma of_Z_value (n : Z) (mc : positive) (ec : Z) :
  -1074 <= ec -> Zpos mc * 2 ^ (ec + 1074) = n * 2 ^ 1074 ->
  (inject_Z n == inject_Z (scaled false mc ec) * 2 ^ (-1074))%Q.
Proof.
  intros Hec Hv. unfold scaled. simpl cond_Zopp. rewrite Hv.
  rewrite inject_Z_mult, Zpower_Qpower by lia.
  rewrite <- Qmult_assoc. change (inject_Z 2) with 2%Q.
  rewrite <- Qpower_plus by done. simpl. ring. 
Qed.

Lemma le_int_spec (level : spec_float) (q : Q) (n : Z) (mc : positive) (ec : Z) :
  is_binary64 level = true -> to_Q level = Some q ->
  of_Z n = S754_finite false mc ec ->
  2 ^ 52 <= Zpos mc < 2 ^ 53 -> -1074 <= ec ->
  Zpos mc * 2 ^ (ec + 1074) = n * 2 ^ 1074 ->
  le_int level n = true <-> (q <= inject_Z n)%Q.
Proof.
  intros Hv Hq Hn Hmc Hec Hval. unfold le_int. rewrite Hn.
  destruct level as [s|s| |s m e]; try done.
  - injection Hq as <-. split; [intros _|done].
    change 0%Q with (inject_Z 0). rewrite <- (Zle_Qle 0 n).
    assert (0 < 2 ^ (ec + 1074)) by (apply Z.pow_pos_nonneg; lia).
    assert (0 < 2 ^ 1074) by done. nia.
  - unfold is_binary64 in Hv. simpl in Hv.
    destruct (bounded_inv m e Hv) as (He & _).
    rewrite (to_Q_scaled s m e q) by (done || lia).
    rewrite (of_Z_value n mc ec Hec Hval), Qle_scaled.
    by apply SFleb_normal_const.
Qed.

Lemma le_int_70 (level : spec_float) (q : Q) :
  is_binary64 level = true -> to_Q level = Some q ->
  le_int level 70 = true <-> (q <= 70)%Q.
Proof.
  intros Hv Hq. by apply (le_int_spec level q 70 4925812092436480 (-46)).
Qed.

Lemma le_int_85 (level : spec_float) (q : Q) :
  is_binary64 level = true -> to_Q level = Some q ->
  le_int level 85 = true <-> (q <= 85)%Q.
Proof.
  intros Hv Hq. by apply (le_int_spec level q 85 5981343255101440 (-46)).
Qed.

End FloatOrder.

(** The literals [70.1] and [85.1] are within half a unit in the last place
    of the decimals they are written as. *)
Lemma literals_nearest :
  forall q1 q2 : Q,
    Float.to_Q Float.f70_1 = Some q1 -> Float.to_Q Float.f85_1 = Some q2 ->
    ((701 # 10) - (1 # 2 ^ 47) <= q1 <= (701 # 10) + (1 # 2 ^ 47))%Q /\
    ((851 # 10) - (1 # 2 ^ 47) <= q2 <= (851 # 10) + (1 # 2 ^ 47))%Q.
Proof.
  intros q1 q2 [= <-] [= <-]. repeat split; by vm_compute.
Qed.

(** ** The classifier *)

(** C3. On every binary64 level with value [q], [get_noise_category] returns
    ["safe"] if [q <= 70], ["moderate"] if [70 < q <= 85] and ["harmful"] if
    [85 < q]; at the boundary, 70.0 is safe, 70.1 and 85.0 are moderate and
    85.1 is harmful. *)
Theorem get_noise_category_thresholds :
  (forall (level : spec_float) (q : Q),
      Float.is_binary64 level = true -> Float.to_Q level = Some q ->
      ((q <= 70)%Q -> get_noise_category level = "safe") /\
      ((70 < q)%Q /\ (q <= 85)%Q -> get_noise_category level = "moderate") /\
      ((85 < q)%Q -> get_noise_category level = "harmful")) /\
  get_noise_category Float.f70_0 = "safe" /\
  get_noise_category Float.f70_1 = "moderate" /\
  get_noise_category Float.f85_0 = "moderate" /\
  get_noise_category Float.f85_1 = "harmful".
Proof.
  split; [|by vm_compute].
  intros level q Hv Hq. unfold get_noise_category.
  pose proof (le_int_70 level q Hv Hq) as H70.
  pose proof (le_int_85 level q Hv Hq) as H85.
  assert (Hlt : forall a b : Q, (a < b)%Q -> (b <= a)%Q -> False)
    by (intros a b Hab Hba; exact (Qlt_not_le _ _ Hab Hba)).
  destruct (Float.le_int level 70) eqn:E70.
  - assert (Hq70 : (q <= 70)%Q) by (by apply H70).
    split; [done|]. split.
    + intros [H _]. destruct (Hlt _ _ H Hq70).
    + intros H. destruct (Hlt 70%Q q); [|done].
      by apply Qlt_trans with 85%Q.
  - assert (Hq70 : ~ (q <= 70)%Q) by (rewrite <- H70; congruence).
    split; [done|].
    destruct (Float.le_int level 85) eqn:E85.
    + assert (Hq85 : (q <= 85)%Q) by (by apply H85).
      split; [done|]. intros H. destruct (Hlt _ _ H Hq85).
    + assert (Hq85 : ~ (q <= 85)%Q) by (rewrite <- H85; congruence).
      split; [|done]. by intros [_ H].
Qed.

(** C10. [get_noise_category] returns one of the three labels on every float;
    NaN and plus infinity fail both comparisons and are ["harmful"]. *)
Theorem get_noise_category_total :
  (forall noise_level : spec_float,
      get_noise_category noise_level = "safe" \/
      get_noise_category noise_level = "moderate" \/
      get_noise_category noise_level = "harmful") /\
  (Float.le_int Float.nan 70 = false /\ Float.le_int Float.nan 85 = false /\
   get_noise_category Float.nan = "harmful") /\
  (Float.le_int Float.pos_infinity 70 = false /\
   Float.le_int Float.pos_infinity 85 = false /\
   get_noise_category Float.pos_infinity = "harmful").
Proof.
  split; [|by vm_compute].
  intros noise_level. unfold get_noise_category.
  destruct (Float.le_int noise_level 70); [by left|].
  destruct (Float.le_int noise_level 85); [by right; left|by right; right].
Qed.

(** ** The handlers *)

Lemma find_device_Some (db : DB) (id user_id : string) (dev : Device) :
  find_device db id user_id = Some dev ->
  devices db !! id = Some dev /\ dev_id dev = id /\ dev_user_id dev = user_id.
Proof.
  unfold find_device. destruct (devices db !! id) as [d|] eqn:E; [|done].
  destruct (String.eqb_spec (dev_id d) id), (String.eqb_spec (dev_user_id d) user_id);
    simpl; intros [= <-]; done.
Qed.

(** Writing one dirty device and nothing else. *)
Lemma flush_dirty (db : DB) (id : string) (dev : Device) :
  flush db (mkSession (<[id := dev]> ∅) [] []) =
  mkDB (<[id := dev]> (devices db)) (readings db).
Proof.
  unfold flush; simpl. f_equal; [|by rewrite app_nil_r].
  by rewrite <- insert_union_l, (left_id ∅ (∪)).
Qed.

Lemma flush_clean (db : DB) (id : string) (dev : Device) :
  devices db !! id = Some dev ->
  flush db empty_session = mkDB (<[id := dev]> (devices db)) (readings db).
Proof.
  intros Hl. unfold flush; simpl. f_equal; [|by rewrite app_nil_r].
  by rewrite (left_id ∅ (∪)), insert_id.
Qed.

Section HandlerFacts.

Variable float_of_str : string -> option spec_float.

Lemma targeted_device_Some (rq : Request) (data : value) (db : DB) (dev : Device) :
  targeted_device rq data db = Some dev ->
  exists user_id d,
    current_user rq = Some user_id /\ data = VDict d /\
    dict_get "deviceId" d = Some (VStr (dev_id dev)) /\
    find_device db (dev_id dev) user_id = Some dev.
Proof.
  unfold targeted_device. destruct (current_user rq) as [uid|]; [|done].
  destruct data as [| | | | | |d]; try done.
  destruct (dict_get "deviceId" d) as [[| | | |id| |]|] eqn:Hid; try done.
  destruct (String.eqb id ""); [intros [=]|]. intros Hf.
  destruct (find_device_Some _ _ _ _ Hf) as (_ & <- & _). by exists uid, d.
Qed.

(** Every run of [handle_device_update] returns, in one of the three
    outcomes. *)
Lemma handle_device_update_outcome (rq : Request) (data : value) (db : DB) :
  exists st, run (handle_device_update float_of_str rq data) db = (Ok tt, st) /\
             update_outcome rq data db st.
Proof.
  unfold run, handle_device_update.
  destruct (current_user rq) as [uid|] eqn:Hu;
    [|eexists; split; [done|]; constructor; unfold targeted_device; by rewrite Hu].
  destruct data as [| | | | |l|d]; try (eexists; split; [reflexivity|apply update_failed]).
  unfold try_except, mbind, M_bind, lift, py_get, initial. simpl.
  destruct (dict_get "deviceId" d) as [v|] eqn:Hid; simpl.
  2:{ eexists; split; [done|]. constructor. unfold targeted_device. by rewrite Hu, Hid. }
  destruct (truthy v) eqn:Ht; simpl.
  2:{ eexists; split; [done|]. constructor. unfold targeted_device. rewrite Hu, Hid.
      destruct v; try done. simpl in Ht. by destruct (String.eqb s ""). }
  destruct v as [|b|n|f|id|l|d']; simpl;
    try (eexists; split; [done|];
         first [apply update_failed
               | constructor; unfold targeted_device; by rewrite Hu, Hid]).
  unfold Device_query; simpl.
  assert (Hne : String.eqb id "" = false) by (simpl in Ht; by destruct (String.eqb id "")).
  destruct (find_device db id uid) as [dev|] eqn:Hf; simpl.
  2:{ eexists; split; [done|]. constructor. unfold targeted_device.
      by rewrite Hu, Hid, Hne. }
  destruct (find_device_Some _ _ _ _ Hf) as (Hl & Hd & Ho).
  assert (Htg : targeted_device rq (VDict d) db = Some dev)
    by (unfold targeted_device; by rewrite Hu, Hid, Hne).
  pose proof (update_patched rq (VDict d) db uid d dev Hu eq_refl Htg) as Hok.
  unfold dict_has, device_patch in *.
  destruct (dict_get "batteryLevel" d) as [b|] eqn:Hb; simpl;
    (destruct (dict_get "noiseLevel" d) as [nl|] eqn:Hn; simpl;
     [destruct (py_float float_of_str nl); simpl;
      eexists; (split; [done|]); apply update_failed|]);
    unfold commit; simpl; destruct (commit_ok rq) eqn:Hc; simpl;
    try (eexists; split; [done|]; apply update_failed).
  - eexists; split; [done|].
    rewrite flush_dirty. by apply Hok.
  - eexists; split; [done|].
    change (mkSession ∅ [] []) with empty_session.
    rewrite (flush_clean db id dev Hl), <- Hd. by apply Hok.
Qed.

End HandlerFacts.

Section ViewFacts.

Variable float_of_str : string -> option spec_float.

Lemma status_patch_id (dev : Device) (d : list (string * value)) :
  dev_id (status_patch dev d) = dev_id dev.
Proof. unfold status_patch, device_patch. by destruct (dict_get "batteryLevel" d). Qed.

(** [update_device_status] either leaves no trace in the database and emits
    nothing, or commits the patch of the caller's device and emits. *)
Lemma update_device_status_outcome (rq : Request) (id : string) (data : value) (db : DB) :
  exists r st,
    run (dispatch (update_device_status rq id data)) db = (Ok r, st) /\
    ((st = initial db /\ exists status p, r = Response status p /\ status <> 200) \/
     (exists user_id dev d,
        current_user rq = Some user_id /\ find_device db id user_id = Some dev /\
        data = VDict d /\ commit_ok rq = true /\
        r = Response 200 (PDevice (status_patch dev d)) /\
        st = mkSt (mkDB (<[id := status_patch dev d]> (devices db)) (readings db))
               empty_session
               [mkEmit "device_status" (PDevice (status_patch dev d)) ToAll])).
Proof.
  unfold run, dispatch, update_device_status, login_required_api, try_except.
  destruct (current_user rq) as [uid|] eqn:Hu; simpl.
  2:{ do 2 eexists; split; [done|]. left. split; [done|]. by do 2 eexists. }
  unfold mbind, M_bind, Device_query, initial; simpl.
  destruct (find_device db id uid) as [dev|] eqn:Hf; simpl.
  2:{ do 2 eexists; split; [done|]. left. split; [done|]. by do 2 eexists. }
  destruct (find_device_Some _ _ _ _ Hf) as (Hl & Hd & Ho).
  destruct data as [| | | | | |d];
    try (do 2 eexists; split; [reflexivity|]; left; split; [done|]; by do 2 eexists).
  simpl. unfold dict_has.
  unfold status_patch, device_patch, dict_get_default.
  destruct (dict_get "batteryLevel" d) as [b|] eqn:Hb; simpl;
    unfold commit; simpl; destruct (commit_ok rq) eqn:Hc; simpl;
    do 2 eexists; (split; [done|]);
    try (left; split; [done|]; by do 2 eexists).
  - right. exists uid, dev, d. rewrite Hb. repeat (split; [done|]).
    by rewrite insert_insert_eq, flush_dirty, Hd.
  - right. exists uid, dev, d. rewrite Hb. repeat (split; [done|]).
    by rewrite flush_dirty, Hd.
Qed.

(** [create_noise_reading] either leaves no trace and emits nothing, or
    commits one reading with the level and the category of the request and
    emits it to every client. *)
Lemma create_noise_reading_outcome (rq : Request) (data : value) (db : DB) :
  exists r st,
    run (dispatch (create_noise_reading float_of_str rq data)) db = (Ok r, st) /\
    ((st = initial db /\ exists status p, r = Response status p /\ status <> 200) \/
     (exists user_id d raw level cat,
        current_user rq = Some user_id /\ data = VDict d /\
        dict_get "noiseLevel" d = Some raw /\ py_float float_of_str raw = Ok level /\
        dict_get "category" d = Some cat /\ commit_ok rq = true /\
        let reading := mkNoiseReading (uuid4 rq) user_id level cat (utcnow rq)
                         (dict_get_default "location" d (VStr "Real-time monitoring")) in
        r = Response 200 (PNoiseReading reading) /\
        st = mkSt (mkDB (devices db) (readings db ++ [reading])) empty_session
               [mkEmit "noise_reading" (PNoiseReading reading) ToAll])).
Proof.
  unfold run, dispatch, create_noise_reading, login_required_api, try_except.
  destruct (current_user rq) as [uid|] eqn:Hu; simpl.
  2:{ do 2 eexists; split; [done|]. left. split; [done|]. by do 2 eexists. }
  unfold mbind, M_bind, lift, initial; simpl.
  destruct data as [| | | | | |d];
    try (do 2 eexists; split; [reflexivity|]; left; split; [done|]; by do 2 eexists).
  simpl.
  destruct (dict_get "noiseLevel" d) as [raw|] eqn:Hn; simpl.
  2:{ do 2 eexists; split; [done|]. left. split; [done|]. by do 2 eexists. }
  destruct (py_float float_of_str raw) as [level|e] eqn:Hfl; simpl.
  2:{ do 2 eexists; split; [done|]. left. split; [done|]. by do 2 eexists. }
  destruct (dict_get "category" d) as [cat|] eqn:Hc; simpl.
  2:{ do 2 eexists; split; [done|]. left. split; [done|]. by do 2 eexists. }
  unfold commit, key_conflict; simpl.
  destruct (commit_ok rq && _) eqn:Hk; simpl.
  - do 2 eexists; split; [done|]. right. exists uid, d, raw, level, cat.
    apply andb_true_iff in Hk as [Hk _].
    repeat (split; [done|]).
    unfold flush; simpl. by rewrite (left_id ∅ (∪)).
  - do 2 eexists; split; [done|]. left. split; [done|]. by do 2 eexists.
Qed.

End ViewFacts.

(** ** Frames of the patches *)

Lemma patch_frame_refl (id : string) (data : value) (db : DB) : patch_frame id data db db.
Proof.
  split; [done|]. intros id'. destruct (devices db !! id'); [|done].
  by repeat split.
Qed.

Lemma same_identity_status_patch (dev : Device) (d : list (string * value)) :
  same_identity dev (status_patch dev d).
Proof. unfold status_patch, device_patch. by destruct (dict_get "batteryLevel" d). Qed.

Lemma same_identity_device_patch (dev : Device) (d : list (string * value)) :
  same_identity dev (device_patch dev d).
Proof. unfold device_patch. by destruct (dict_get "batteryLevel" d). Qed.

Lemma patch_frame_insert (id : string) (d : list (string * value)) (db : DB)
    (dev dev' : Device) :
  devices db !! id = Some dev -> same_identity dev dev' ->
  (dict_has "batteryLevel" d = false -> battery_level dev' = battery_level dev) ->
  (dict_has "isConnected" d = false -> is_connected dev' = is_connected dev) ->
  patch_frame id (VDict d) db (mkDB (<[id := dev']> (devices db)) (readings db)).
Proof.
  intros Hl Hs Hb Hc. split; [done|]. intros id'. simpl.
  destruct (decide (id = id')) as [<-|Hne].
  - rewrite Hl, lookup_insert_eq.
    split; [done|]. split; [exact Hb|]. split; [exact Hc|]. by intros [].
  - rewrite lookup_insert_ne by done.
    destruct (devices db !! id'); [|done]. by repeat split.
Qed.

(** A patch of an owned device on a commit that goes through. *)
Lemma update_device_status_commits (rq : Request) (user_id id : string) (dev : Device)
    (d : list (string * value)) (db : DB) :
  current_user rq = Some user_id -> find_device db id user_id = Some dev ->
  commit_ok rq = true ->
  run (dispatch (update_device_status rq id (VDict d))) db =
  (Ok (Response 200 (PDevice (status_patch dev d))),
   mkSt (mkDB (<[id := status_patch dev d]> (devices db)) (readings db)) empty_session
     [mkEmit "device_status" (PDevice (status_patch dev d)) ToAll]).
Proof.
  intros Hu Hf Hc.
  destruct (find_device_Some _ _ _ _ Hf) as (Hl & Hd & Ho).
  unfold run, dispatch, update_device_status, login_required_api, try_except,
    mbind, M_bind, lift, initial, Device_query, commit.
  rewrite Hu. simpl. rewrite Hf. simpl.
  unfold dict_has, status_patch, device_patch, dict_get_default.
  destruct (dict_get "batteryLevel" d) as [b|]; simpl; rewrite Hc; simpl.
  - by rewrite insert_insert_eq, flush_dirty, Hd.
  - by rewrite flush_dirty, Hd.
Qed.

(** Any patch through [update_device_status] stays within the frame. *)
Lemma update_device_status_frame (rq : Request) (id : string) (data : value) (db : DB) :
  patch_frame id data db (st_db (snd (run (dispatch (update_device_status rq id data)) db))).
Proof.
  destruct (update_device_status_outcome rq id data db) as (r & st & -> & H). simpl.
  destruct H as [[-> _]|(uid & dev & d & Hu & Hf & -> & Hc & _ & ->)].
  - apply patch_frame_refl.
  - destruct (find_device_Some _ _ _ _ Hf) as (Hl & _). simpl.
    apply (patch_frame_insert id d db dev); [done|apply same_identity_status_patch| |].
    + unfold dict_has, status_patch, device_patch.
      by destruct (dict_get "batteryLevel" d).
    + unfold dict_has, status_patch, device_patch, dict_get_default.
      by destruct (dict_get "batteryLevel" d), (dict_get "isConnected" d).
Qed.

(** ** The claims about the HTTP views *)

(** C4. The [device_status] events of [create_device] and
    [update_device_status] are emitted without a room: a connection of
    another identity [B] observes the event that a request of [A] caused. *)
Theorem device_status_reaches_other_identity
    (rqA rqB : Request) (A B : string) (h : Hub) (db : DB) :
  current_user rqA = Some A -> current_user rqB = Some B -> A <> B ->
  commit_ok rqA = true ->
  let h' := fst (handle_connect rqB h) in
  (forall d name type battery,
      dict_get "deviceName" d = Some name -> dict_get "deviceType" d = Some type ->
      dict_get "batteryLevel" d = Some battery ->
      device_id_taken db (uuid4 rqA) = false ->
      exists r st e,
        run (dispatch (create_device rqA (VDict d))) db = (Ok r, st) /\
        st_emitted st = [e] /\ event e = "device_status" /\
        observes h' (sid rqB) e = true) /\
  (forall id dev d,
      find_device db id A = Some dev ->
      exists r st e,
        run (dispatch (update_device_status rqA id (VDict d))) db = (Ok r, st) /\
        st_emitted st = [e] /\ event e = "device_status" /\
        observes h' (sid rqB) e = true).
Proof.
  intros HA HB Hne Hc h'.
  assert (Hobs : forall p, observes h' (sid rqB) (mkEmit "device_status" p ToAll) = true).
  { intros p. unfold observes, h', handle_connect. rewrite HB. simpl.
    apply bool_decide_eq_true. set_solver. }
  split.
  - intros d name type battery Hn Ht Hb Hfresh.
    unfold run, dispatch, create_device, login_required_api, try_except,
      mbind, M_bind, lift, initial, commit, key_conflict.
    rewrite HA. simpl. rewrite Hn. simpl. rewrite Ht. simpl. rewrite Hb. simpl.
    rewrite Hc, Hfresh. simpl.
    do 3 eexists. split; [done|]. split; [done|]. split; [done|]. apply Hobs.
  - intros id dev d Hf.
    rewrite (update_device_status_commits rqA A id dev d db HA Hf Hc).
    do 3 eexists. split; [done|]. split; [done|]. split; [done|]. apply Hobs.
Qed.

(** C9. A patch through [update_device_status] that goes through writes the
    battery level and the connectivity flag of the request and leaves
    [last_connected] as it was. *)
Theorem status_patch_keeps_last_connected
    (rq : Request) (user_id id : string) (dev : Device)
    (d : list (string * value)) (db : DB) :
  current_user rq = Some user_id -> find_device db id user_id = Some dev ->
  commit_ok rq = true ->
  exists r st dev',
    run (dispatch (update_device_status rq id (VDict d))) db = (Ok r, st) /\
    devices (st_db st) !! id = Some dev' /\
    battery_level dev' = dict_get_default "batteryLevel" d (battery_level dev) /\
    is_connected dev' = dict_get_default "isConnected" d (is_connected dev) /\
    last_connected dev' = last_connected dev.
Proof.
  intros Hu Hf Hc.
  rewrite (update_device_status_commits rq user_id id dev d db Hu Hf Hc).
  do 3 eexists. split; [done|]. simpl. rewrite lookup_insert_eq. split; [done|].
  unfold status_patch, device_patch, dict_get_default.
  by destruct (dict_get "batteryLevel" d).
Qed.

(** The sibling [disconnect_bluetooth_device] stamps [last_connected] with
    the time of the request. *)
Lemma disconnect_stamps_last_connected
    (rq : Request) (user_id id : string) (dev : Device) (db : DB) :
  current_user rq = Some user_id -> find_device db id user_id = Some dev ->
  commit_ok rq = true ->
  exists r st dev',
    run (dispatch (disconnect_bluetooth_device rq id)) db = (Ok r, st) /\
    devices (st_db st) !! id = Some dev' /\
    is_connected dev' = VBool false /\ last_connected dev' = utcnow rq.
Proof.
  intros Hu Hf Hc. destruct (find_device_Some _ _ _ _ Hf) as (Hl & Hd & Ho).
  unfold run, dispatch, disconnect_bluetooth_device, login_required_api, try_except,
    mbind, M_bind, Device_query, commit.
  rewrite Hu. simpl. rewrite Hf. simpl. rewrite Hc. simpl.
  do 3 eexists. split; [done|]. simpl.
  rewrite insert_insert_eq, <- insert_union_l, Hd, lookup_insert_eq. by split.
Qed.

(** ** The claims about ingestion and the event handler *)

Section Claims.

Variable float_of_str : string -> option spec_float.

(** Any [device_update] message stays within the frame, and never touches
    the connectivity flag. *)
Lemma handle_device_update_frame (rq : Request) (data : value) (db : DB) (id : string) :
  (forall dev, targeted_device rq data db = Some dev -> dev_id dev = id) ->
  patch_frame id data db (st_db (snd (run (handle_device_update float_of_str rq data) db))).
Proof.
  intros Hid.
  destruct (handle_device_update_outcome float_of_str rq data db) as (st & -> & H). simpl.
  destruct H as [_| |uid d dev Hu -> Ht Hn Hc]; try apply patch_frame_refl.
  rewrite (Hid dev Ht) in *.
  destruct (targeted_device_Some _ _ _ _ Ht) as (uid' & d' & Hu' & [= <-] & _ & Hf).
  destruct (find_device_Some _ _ _ _ Hf) as (Hl & _). simpl.
  rewrite (Hid dev Ht) in Hl.
  apply (patch_frame_insert id d db dev); [done|apply same_identity_device_patch| |].
  - unfold dict_has, device_patch. by destruct (dict_get "batteryLevel" d).
  - intros _. unfold device_patch. by destruct (dict_get "batteryLevel" d).
Qed.

(** C1. When identity [U] owns device [D], the message
    [{deviceId: D, noiseLevel: 90.0}] persists nothing and emits no
    [device_status]: the constructor of [NoiseReading] refuses the keyword
    [device_id], the transaction is rolled back and the sender alone gets
    an [error] event. *)
Theorem device_update_noise_reading_rejected
    (rq : Request) (U D : string) (dev : Device) (db : DB) :
  current_user rq = Some U -> D <> "" -> find_device db D U = Some dev ->
  run (handle_device_update float_of_str rq
         (VDict [("deviceId", VStr D); ("noiseLevel", VFloat Float.f90_0)])) db =
  (Ok tt,
   mkSt db empty_session
     [mkEmit "error"
        (PError (TypeError "device_id is an invalid keyword argument for NoiseReading"))
        (ToSid (sid rq))]).
Proof.
  intros Hu HD Hf.
  unfold run, handle_device_update, try_except, mbind, M_bind, lift, initial.
  rewrite Hu. simpl.
  destruct (String.eqb_spec D ""); [done|]. simpl.
  unfold Device_query. simpl. rewrite Hf. reflexivity.
Qed.

(** C2. [create_noise_reading] stores the category the request carries,
    whatever the level: on a commit that goes through, the new row has the
    level and the category of the payload. *)
Theorem create_noise_reading_stores_request_category
    (rq : Request) (user_id : string) (level : spec_float) (cat : value) (db : DB) :
  current_user rq = Some user_id -> commit_ok rq = true ->
  reading_id_taken db (uuid4 rq) = false ->
  exists r st,
    run (dispatch (create_noise_reading float_of_str rq
           (VDict [("noiseLevel", VFloat level); ("category", cat)]))) db = (Ok r, st) /\
    exists reading,
      readings (st_db st) = (readings db ++ [reading])%list /\
      nr_user_id reading = user_id /\
      noise_level reading = level /\ category reading = cat.
Proof.
  intros Hu Hc Hfresh.
  unfold run, dispatch, create_noise_reading, login_required_api, try_except,
    mbind, M_bind, lift, initial, commit, key_conflict.
  rewrite Hu. simpl. rewrite Hc, Hfresh. simpl.
  do 2 eexists. split; [done|]. eexists. by simpl.
Qed.

(** C5. When the commit fails, a [device_update] message leaves the tables
    as they were, both readings and devices, whatever fields it carries; its
    only emission is an [error] event to the sender, and that event is sent
    whenever the message targets a device of the sender. The HTTP ingest
    leaves the tables as they were, emits nothing and answers with an
    error status. *)
Theorem commit_failure_rolls_back (rq : Request) (data : value) (db : DB) :
  commit_ok rq = false ->
  (exists st,
     run (handle_device_update float_of_str rq data) db = (Ok tt, st) /\
     st_db st = db /\ st_session st = empty_session /\
     (st_emitted st = [] \/
      exists e, st_emitted st = [mkEmit "error" (PError e) (ToSid (sid rq))]) /\
     (is_Some (targeted_device rq data db) ->
      exists e, st_emitted st = [mkEmit "error" (PError e) (ToSid (sid rq))])) /\
  (exists r st,
     run (dispatch (create_noise_reading float_of_str rq data)) db = (Ok r, st) /\
     st_db st = db /\ st_session st = empty_session /\ st_emitted st = [] /\
     exists status p, r = Response status p /\ status <> 200).
Proof.
  intros Hc. split.
  - destruct (handle_device_update_outcome float_of_str rq data db) as (st & Hrun & H).
    exists st. split; [done|].
    destruct H as [Hnone|e|uid d dev _ _ _ _ Hok]; [| |congruence]; simpl.
    + repeat (split; [done|]). split; [by left|].
      rewrite Hnone. by intros [? [=]].
    + repeat (split; [done|]). split; [right|]; by exists e.
  - destruct (create_noise_reading_outcome float_of_str rq data db) as (r & st & Hrun & H).
    exists r, st. split; [done|].
    destruct H as [[-> Hr]|(? & ? & ? & ? & ? & _ & _ & _ & _ & _ & ? & _)]; [done|congruence].
Qed.

(** C6. A patch with [batteryLevel] alone, through [update_device_status] or
    through a [device_update] message, changes at most the battery level of
    the caller's device [id]: connectivity, name and the other attributes,
    the other devices and the readings are as before. The level written is
    the patch's, for a level the column holds as given (null or an integer of
    64 bits). For any patch at all, an attribute the patch does not name
    keeps its value. *)
Theorem battery_patch_changes_battery_only
    (rq : Request) (user_id id : string) (dev : Device) (b : value) (db : DB) :
  current_user rq = Some user_id -> find_device db id user_id = Some dev -> id <> "" ->
  integer_column_value b = true ->
  battery_patch_effect (commit_ok rq) id dev b db
    (st_db (snd (run (dispatch (update_device_status rq id
                                  (VDict [("batteryLevel", b)]))) db))) /\
  battery_patch_effect (commit_ok rq) id dev b db
    (st_db (snd (run (handle_device_update float_of_str rq
                        (VDict [("deviceId", VStr id); ("batteryLevel", b)])) db))) /\
  (forall data : value,
      patch_frame id data db
        (st_db (snd (run (dispatch (update_device_status rq id data)) db))) /\
      (targeted_device rq data db = Some dev ->
       patch_frame id data db
         (st_db (snd (run (handle_device_update float_of_str rq data) db))))).
Proof.
  intros Hu Hf Hne _. destruct (find_device_Some _ _ _ _ Hf) as (Hl & Hd & Ho).
  assert (Hunchanged : battery_patch_effect false id dev b db db).
  { split; [done|]. split; [done|]. exists dev. by repeat split. }
  assert (Hpatched : battery_patch_effect true id dev b db
            (mkDB (<[id := set_battery_level dev b]> (devices db)) (readings db))).
  { split; [done|]. split; [by intros id' ?; simpl; rewrite lookup_insert_ne|].
    exists (set_battery_level dev b). simpl. rewrite lookup_insert_eq. by repeat split. }
  split; [|split].
  - destruct (commit_ok rq) eqn:Hc.
    + by rewrite (update_device_status_commits rq user_id id dev _ db Hu Hf Hc).
    + destruct (update_device_status_outcome rq id (VDict [("batteryLevel", b)]) db)
        as (r & st & -> & [[-> _]|(? & ? & ? & _ & _ & _ & ? & _)]); [done|congruence].
  - destruct (String.eqb_spec id "") as [|_]; [done|].
    unfold run, handle_device_update, try_except, mbind, M_bind, lift, initial,
      Device_query_by, Device_query, commit.
    rewrite Hu. simpl. destruct (String.eqb_spec id "") as [|_]; [done|]. simpl.
    rewrite Hf. simpl. destruct (commit_ok rq); simpl; [|done].
    by rewrite flush_dirty, Hd.
  - intros data. split; [apply update_device_status_frame|].
    intros Ht. apply handle_device_update_frame. intros dev' Ht'. congruence.
Qed.


(** C8, as the code has it. A mutation that targets a device the caller does
    not own changes nothing and emits nothing; [update_device_status] and
    [disconnect_bluetooth_device] answer 404, and [handle_device_update]
    returns without a word to the sender. *)
Theorem foreign_device_untouched (rq : Request) (user_id id : string) (db : DB) :
  current_user rq = Some user_id -> find_device db id user_id = None ->
  (forall data : value,
      run (dispatch (update_device_status rq id data)) db =
      (Ok (Response 404 (PMessage "Device not found")), initial db)) /\
  run (dispatch (disconnect_bluetooth_device rq id)) db =
    (Ok (Response 404 (PMessage "Device not found")), initial db) /\
  (forall d : list (string * value),
      dict_get "deviceId" d = Some (VStr id) ->
      run (handle_device_update float_of_str rq (VDict d)) db = (Ok tt, initial db)).
Proof.
  intros Hu Hf. split; [|split].
  - intros data.
    unfold run, dispatch, update_device_status, login_required_api, try_except,
      mbind, M_bind, Device_query.
    rewrite Hu. simpl. by rewrite Hf.
  - unfold run, dispatch, disconnect_bluetooth_device, login_required_api, try_except,
      mbind, M_bind, Device_query.
    rewrite Hu. simpl. by rewrite Hf.
  - intros d Hd.
    unfold run, handle_device_update, try_except, mbind, M_bind, lift, Device_query_by,
      Device_query.
    rewrite Hu. simpl. rewrite Hd. simpl.
    destruct (String.eqb id ""); simpl; [done|]. by rewrite Hf.
Qed.

End Claims.

(** ** The claims on the sample data *)

Lemma get_noise_category_thresholds_witness :
  get_noise_category Float.f90_0 = "harmful".
Proof.
  destruct (proj1 get_noise_category_thresholds Float.f90_0 _ eq_refl eq_refl)
    as (_ & _ & H).
  apply H. by vm_compute.
Defined.

Lemma device_update_noise_reading_rejected_witness :
  run (handle_device_update Sample.no_literal (Sample.request true)
         (VDict [("deviceId", VStr "D"); ("noiseLevel", VFloat Float.f90_0)])) Sample.db =
  (Ok tt,
   mkSt Sample.db empty_session
     [mkEmit "error"
        (PError (TypeError "device_id is an invalid keyword argument for NoiseReading"))
        (ToSid "s1")]).
Proof.
  apply (device_update_noise_reading_rejected Sample.no_literal (Sample.request true)
           "U" "D" Sample.D Sample.db); [reflexivity|discriminate|by vm_compute].
Defined.

Lemma create_noise_reading_stores_request_category_witness :
  get_noise_category Float.f90_0 = "harmful" /\
  exists r st,
    run (dispatch (create_noise_reading Sample.no_literal (Sample.request true)
           (VDict [("noiseLevel", VFloat Float.f90_0); ("category", VStr "safe")])))
      Sample.db = (Ok r, st) /\
    exists reading,
      readings (st_db st) = (readings Sample.db ++ [reading])%list /\
      nr_user_id reading = "U" /\
      noise_level reading = Float.f90_0 /\ category reading = VStr "safe".
Proof.
  split; [reflexivity|].
  apply (create_noise_reading_stores_request_category Sample.no_literal
           (Sample.request true) "U" Float.f90_0 (VStr "safe") Sample.db);
    reflexivity.
Defined.

Lemma device_status_reaches_other_identity_witness :
  exists r st e,
    run (dispatch (update_device_status (Sample.request true) "D"
                     (VDict [("batteryLevel", VInt 42)]))) Sample.db = (Ok r, st) /\
    st_emitted st = [e] /\ event e = "device_status" /\
    observes (fst (handle_connect (Sample.request_of "V" "s2") Sample.hub)) "s2" e = true.
Proof.
  apply (proj2 (device_status_reaches_other_identity
                  (Sample.request true) (Sample.request_of "V" "s2") "U" "V"
                  Sample.hub Sample.db eq_refl eq_refl ltac:(discriminate) eq_refl)
           "D" Sample.D).
  by vm_compute.
Defined.

Lemma commit_failure_rolls_back_witness :
  exists st,
    run (handle_device_update Sample.no_literal (Sample.request false)
           (VDict [("deviceId", VStr "D"); ("batteryLevel", VInt 42)])) Sample.db
    = (Ok tt, st) /\
    st_db st = Sample.db /\
    exists e, st_emitted st = [mkEmit "error" (PError e) (ToSid "s1")].
Proof.
  destruct (commit_failure_rolls_back Sample.no_literal (Sample.request false)
              (VDict [("deviceId", VStr "D"); ("batteryLevel", VInt 42)]) Sample.db
              eq_refl) as [(st & Hrun & Hdb & _ & _ & Herr) _].
  exists st. split; [done|]. split; [done|]. apply Herr. exists Sample.D. by vm_compute.
Defined.

Lemma battery_patch_changes_battery_only_witness :
  battery_patch_effect true "D" Sample.D (VInt 42) Sample.db
    (st_db (snd (run (dispatch (update_device_status (Sample.request true) "D"
                                  (VDict [("batteryLevel", VInt 42)]))) Sample.db))) /\
  battery_patch_effect true "D" Sample.D (VInt 42) Sample.db
    (st_db (snd (run (handle_device_update Sample.no_literal (Sample.request true)
                        (VDict [("deviceId", VStr "D"); ("batteryLevel", VInt 42)]))
                   Sample.db))).
Proof.
  destruct (battery_patch_changes_battery_only Sample.no_literal (Sample.request true)
              "U" "D" Sample.D (VInt 42) Sample.db)
    as (H1 & H2 & _); [reflexivity|by vm_compute|discriminate|reflexivity|].
  by split.
Defined.


(** C8, the claim as written fails: [U] sends a [device_update] for the
    device [E] of [V], and nothing at all is emitted, no report either. *)
Lemma device_update_foreign_device_unreported :
  find_device Sample.db "E" "U" = None /\
  let st :=
    snd (run (handle_device_update Sample.no_literal (Sample.request true)
                (VDict [("deviceId", VStr "E"); ("batteryLevel", VInt 1)])) Sample.db) in
  st_db st = Sample.db /\ st_emitted st = [].
Proof. by vm_compute. Qed.

Lemma foreign_device_untouched_witness :
  run (dispatch (update_device_status (Sample.request true) "E"
                   (VDict [("batteryLevel", VInt 1)]))) Sample.db =
    (Ok (Response 404 (PMessage "Device not found")), initial Sample.db) /\
  run (handle_device_update Sample.no_literal (Sample.request true)
         (VDict [("deviceId", VStr "E"); ("batteryLevel", VInt 1)])) Sample.db =
    (Ok tt, initial Sample.db).
Proof.
  destruct (foreign_device_untouched Sample.no_literal (Sample.request true) "U" "E"
              Sample.db eq_refl) as (H1 & _ & H3); [by vm_compute|].
  split; [apply H1|by apply H3].
Defined.

Lemma status_patch_keeps_last_connected_witness :
  utcnow (Sample.request true) <> last_connected Sample.D /\
  exists r st dev',
    run (dispatch (update_device_status (Sample.request true) "D"
                     (VDict [("batteryLevel", VInt 42)]))) Sample.db = (Ok r, st) /\
    devices (st_db st) !! "D" = Some dev' /\
    battery_level dev' = VInt 42 /\
    is_connected dev' = is_connected Sample.D /\
    last_connected dev' = last_connected Sample.D.
Proof.
  split; [discriminate|].
  apply (status_patch_keeps_last_connected (Sample.request true) "U" "D" Sample.D
           [("batteryLevel", VInt 42)] Sample.db); [reflexivity|by vm_compute|reflexivity].
Defined.

(** * Further properties of the code *)

(** ** One call and the tables *)

Lemma key_conflict_new_device (db : DB) (dev : Device) :
  key_conflict db (mkSession ∅ [dev] []) = false -> devices db !! dev_id dev = None.
Proof.
  unfold key_conflict, device_id_taken. simpl. rewrite !orb_false_r.
  intros H%bool_decide_eq_false. destruct (devices db !! dev_id dev); [|done].
  destruct H. by eexists.
Qed.

Lemma key_conflict_new_reading (db : DB) (r : NoiseReading) :
  key_conflict db (mkSession ∅ [] [r]) = false -> reading_id_taken db (nr_id r) = false.
Proof. unfold key_conflict. simpl. by rewrite orb_false_r. Qed.

Lemma flush_new_device (db : DB) (dev : Device) :
  flush db (mkSession ∅ [dev] []) = mkDB (<[dev_id dev := dev]> (devices db)) (readings db).
Proof. unfold flush. simpl. by rewrite (left_id ∅ (∪)), app_nil_r. Qed.

Lemma flush_new_reading (db : DB) (r : NoiseReading) :
  flush db (mkSession ∅ [] [r]) = mkDB (devices db) (readings db ++ [r]).
Proof. unfold flush. simpl. by rewrite (left_id ∅ (∪)). Qed.

Lemma db_step_status_patch (user_id id : string) (dev : Device)
    (d : list (string * value)) (db : DB) :
  find_device db id user_id = Some dev ->
  db_step user_id db (mkDB (<[id := status_patch dev d]> (devices db)) (readings db)).
Proof.
  intros Hf. destruct (find_device_Some _ _ _ _ Hf) as (_ & Hd & Ho).
  destruct (same_identity_status_patch dev d) as (? & ? & ? & ? & _ & ?).
  apply (step_patch user_id db id dev); congruence.
Qed.

Lemma db_step_device_patch (user_id : string) (dev : Device)
    (d : list (string * value)) (db : DB) :
  find_device db (dev_id dev) user_id = Some dev ->
  db_step user_id db (mkDB (<[dev_id dev := device_patch dev d]> (devices db)) (readings db)).
Proof.
  intros Hf. destruct (find_device_Some _ _ _ _ Hf) as (_ & Hd & Ho).
  destruct (same_identity_device_patch dev d) as (? & ? & ? & ? & _ & ?).
  apply (step_patch user_id db (dev_id dev) dev); congruence.
Qed.

Section ServeFacts.

Variable float_of_str : string -> option spec_float.

(** Every call ends in one of the outcomes, and a call without identity
    leaves no trace. *)
Lemma serve_outcome (rq : Request) (c : api_call) (db : DB) :
  call_outcome rq c db (serve float_of_str rq c db) /\
  (current_user rq = None -> serve float_of_str rq c db = initial db).
Proof.
  destruct c as [data|data|id data|data|id|data]; unfold serve.
  - destruct (create_noise_reading_outcome float_of_str rq data db)
      as (r & st & Hrun & H). rewrite Hrun. simpl.
    destruct H as [[-> _]|(uid & d & raw & level & cat & Hu & -> & Hn & Hl & Hc & Hok & _ & ->)].
    + split; [constructor|done].
    + split; [|congruence].
      apply (call_commit rq _ db uid); try done; [|by apply in_or_app; right; left].
      apply (step_new_reading uid db (mkNoiseReading (uuid4 rq) uid level cat (utcnow rq) _));
        [|done].
      revert Hrun.
      unfold run, dispatch, create_noise_reading, login_required_api, try_except,
        mbind, M_bind, lift, initial, commit.
      rewrite Hu. simpl. rewrite Hn. simpl. rewrite Hl. simpl. rewrite Hc. simpl.
      rewrite Hok. simpl.
      destruct (key_conflict db _) eqn:Hk; simpl; [by intros [= _ ?]|].
      intros _. by apply key_conflict_new_reading in Hk.
  - unfold run, dispatch, create_device, login_required_api, try_except.
    destruct (current_user rq) as [uid|] eqn:Hu; [|split; [constructor|done]].
    split; [|done].
    unfold mbind, M_bind, lift, initial, commit. simpl.
    destruct data as [| | | | | |d]; try constructor. simpl.
    destruct (dict_get "deviceName" d); simpl; [|constructor].
    destruct (dict_get "deviceType" d); simpl; [|constructor].
    destruct (dict_get "batteryLevel" d); simpl; [|constructor].
    destruct (commit_ok rq) eqn:Hc; simpl; [|constructor].
    destruct (key_conflict db _) eqn:Hk; simpl; [constructor|].
    rewrite flush_new_device. apply key_conflict_new_device in Hk.
    apply (call_commit rq _ db uid); try done.
    + by apply step_new_device.
    + unfold emission_committed. simpl. by rewrite lookup_insert_eq.
  - destruct (update_device_status_outcome rq id data db) as (r & st & Hrun & H).
    rewrite Hrun. simpl.
    destruct H as [[-> Hr]|(uid & dev & d & Hu & Hf & -> & Hc & _ & ->)].
    + split; [constructor|done].
    + split; [|congruence].
      apply (call_commit rq _ db uid); try done.
      * by apply db_step_status_patch.
      * unfold emission_committed. simpl. rewrite status_patch_id.
        destruct (find_device_Some _ _ _ _ Hf) as (_ & -> & _).
        by rewrite lookup_insert_eq.
  - unfold run, dispatch, connect_bluetooth_device, login_required_api, try_except.
    destruct (current_user rq) as [uid|] eqn:Hu; [|split; [constructor|done]].
    split; [|done].
    unfold mbind, M_bind, lift, initial, commit. simpl.
    destruct (truthy data) eqn:Ht; simpl; [|constructor].
    destruct data as [| | | | | |d]; try constructor. simpl.
    destruct (dict_get "deviceName" d) as [name|]; simpl; [|constructor].
    destruct (truthy name); simpl; [|constructor].
    destruct (commit_ok rq) eqn:Hc; simpl; [|constructor].
    destruct (key_conflict db _) eqn:Hk; simpl; [constructor|].
    rewrite flush_new_device. apply key_conflict_new_device in Hk.
    apply (call_commit rq _ db uid); try done.
    + by apply step_new_device.
    + unfold emission_committed. simpl. by rewrite lookup_insert_eq.
  - unfold run, dispatch, disconnect_bluetooth_device, login_required_api, try_except.
    destruct (current_user rq) as [uid|] eqn:Hu; [|split; [constructor|done]].
    split; [|done].
    unfold mbind, M_bind, lift, initial, commit, Device_query. simpl.
    destruct (find_device db id uid) as [dev|] eqn:Hf; simpl; [|constructor].
    destruct (find_device_Some _ _ _ _ Hf) as (_ & Hd & Ho).
    destruct (commit_ok rq) eqn:Hc; simpl; [|constructor].
    rewrite insert_insert_eq, flush_dirty, Hd.
    apply (call_commit rq _ db uid); try done.
    + by apply (step_patch uid db id dev).
    + unfold emission_committed. simpl. by rewrite Hd, lookup_insert_eq.
  - destruct (current_user rq) as [uid|] eqn:Hu.
    + split; [|done].
      destruct (handle_device_update_outcome float_of_str rq data db) as (st & -> & H).
      simpl. destruct H as [Hnone|e|uid' d dev Hu' -> Ht Hn Hc]; simpl.
      * constructor.
      * apply call_error; [by rewrite Hu|done].
      * destruct (targeted_device_Some _ _ _ _ Ht) as (uid'' & d' & Hu'' & _ & _ & Hf).
        assert (uid'' = uid) as -> by congruence.
        assert (uid' = uid) as -> by congruence.
        apply (call_commit rq _ db uid); try done.
        -- by apply db_step_device_patch.
        -- unfold emission_committed. simpl. eexists. by rewrite lookup_insert_eq.
    + unfold run, handle_device_update. rewrite Hu. split; [constructor|done].
Qed.

End ServeFacts.

(** ** What one step keeps *)

Lemma db_step_readings (user_id : string) (db db' : DB) :
  db_step user_id db db' -> readings db `prefix_of` readings db'.
Proof.
  intros [| | |r]; simpl; try done. by exists [r].
Qed.

Lemma db_step_devices (user_id : string) (db db' : DB) (id : string) (dev : Device) :
  db_step user_id db db' -> devices db !! id = Some dev ->
  exists dev',
    devices db' !! id = Some dev' /\
    dev_id dev' = dev_id dev /\ dev_user_id dev' = dev_user_id dev /\
    device_name dev' = device_name dev /\ device_type dev' = device_type dev /\
    created_at dev' = created_at dev.
Proof.
  intros [|k old new Hf Hk Hu Hn Ht Hc|new Hfree Hu|r] Hl; simpl;
    try (by exists dev).
  - destruct (find_device_Some _ _ _ _ Hf) as (Hold & Hid & Ho).
    destruct (decide (k = id)) as [->|Hne].
    + exists new. rewrite lookup_insert_eq. 
      assert (old = dev) as -> by congruence. by repeat split; congruence.
    + exists dev. by rewrite lookup_insert_ne.
  - exists dev. rewrite lookup_insert_ne; [done|]. intros Heq. congruence.
Qed.

Lemma reading_id_taken_false (db : DB) (id : string) :
  reading_id_taken db id = false -> id ∉ map nr_id (readings db).
Proof.
  unfold reading_id_taken. intros H Hin.
  apply list_elem_of_In, in_map_iff in Hin as (r & <- & Hr).
  assert (existsb (fun r' => String.eqb (nr_id r) (nr_id r')) (readings db) = true);
    [|congruence].
  apply existsb_exists. exists r. split; [done|]. apply String.eqb_refl.
Qed.

Lemma db_step_keys (user_id : string) (db db' : DB) :
  db_step user_id db db' -> keys_consistent db -> keys_consistent db'.
Proof.
  intros [|k old new Hf Hk Hu Hn Ht Hc|new Hfree Hu|r Hfresh Hu] [Hdev Hread];
    split; simpl; try done.
  - intros id dev. destruct (decide (k = id)) as [->|Hne].
    + rewrite lookup_insert_eq. congruence.
    + rewrite lookup_insert_ne by done. apply Hdev.
  - intros id dev. destruct (decide (dev_id new = id)) as [<-|Hne].
    + rewrite lookup_insert_eq. congruence.
    + rewrite lookup_insert_ne by done. apply Hdev.
  - rewrite map_app. simpl. apply NoDup_app. split; [done|]. split.
    + intros id Hin ->%list_elem_of_singleton.
      by apply (reading_id_taken_false db (nr_id r)).
    + apply NoDup_singleton.
Qed.

(** A step of [user_id] and the rows of another identity. *)
Lemma db_step_other (user_id other : string) (db db' : DB) :
  db_step user_id db db' -> user_id <> other ->
  (forall id dev, dev_user_id dev = other ->
     devices db' !! id = Some dev <-> devices db !! id = Some dev) /\
  List.filter (fun r => String.eqb (nr_user_id r) other) (readings db') =
  List.filter (fun r => String.eqb (nr_user_id r) other) (readings db).
Proof.
  intros [|k old new Hf Hk Hu Hn Ht Hc|new Hfree Hu|r Hfresh Hu] Hne; simpl;
    try (split; [done|done]).
  - split; [|done]. intros id dev Ho.
    destruct (find_device_Some _ _ _ _ Hf) as (Hold & Hid & Hown).
    destruct (decide (k = id)) as [->|Hk'].
    + rewrite lookup_insert_eq, Hold. split; intros [= <-]; congruence.
    + by rewrite lookup_insert_ne.
  - split; [|done]. intros id dev Ho.
    destruct (decide (dev_id new = id)) as [<-|Hk'].
    + rewrite lookup_insert_eq, Hfree. split; intros [=]; congruence.
    + by rewrite lookup_insert_ne.
  - split; [done|]. rewrite List.filter_app. simpl.
    destruct (String.eqb_spec (nr_user_id r) other); [congruence|].
    by rewrite app_nil_r.
Qed.

Section Traces.

Variable float_of_str : string -> option spec_float.

Lemma serve_db_step (rq : Request) (c : api_call) (db : DB) :
  match current_user rq with
  | Some user_id => db_step user_id db (st_db (serve float_of_str rq c db))
  | None => serve float_of_str rq c db = initial db
  end.
Proof.
  destruct (serve_outcome float_of_str rq c db) as [H Hnone].
  destruct (current_user rq) as [uid|] eqn:Hu; [|by apply Hnone].
  destruct H as [|e _ _|uid' db' e Hu' _ Hstep _ _]; simpl; try constructor.
  congruence.
Qed.

(** X1. Readings are only ever appended: after any sequence of calls the readings
    that were stored come first, unchanged and in their order. *)
Theorem readings_append_only (calls : list (Request * api_call)) (db : DB) :
  readings db `prefix_of` readings (fst (serve_all float_of_str calls db)).
Proof.
  revert db. induction calls as [|[rq c] calls IH]; intros db; simpl; [done|].
  specialize (IH (st_db (serve float_of_str rq c db))).
  destruct (serve_all float_of_str calls _) as [db' es]; simpl in *.
  etrans; [|exact IH].
  pose proof (serve_db_step rq c db) as H.
  destruct (current_user rq); [by eapply db_step_readings|by rewrite H].
Qed.

(** X2. No sequence of calls deletes a device or changes its id, owner, name,
    type or creation time. *)
Theorem devices_persist (calls : list (Request * api_call)) (db : DB)
    (id : string) (dev : Device) :
  devices db !! id = Some dev ->
  exists dev',
    devices (fst (serve_all float_of_str calls db)) !! id = Some dev' /\
    dev_id dev' = dev_id dev /\ dev_user_id dev' = dev_user_id dev /\
    device_name dev' = device_name dev /\ device_type dev' = device_type dev /\
    created_at dev' = created_at dev.
Proof.
  revert db dev. induction calls as [|[rq c] calls IH]; intros db dev Hl; simpl.
  { by exists dev. }
  assert (exists dev1,
    devices (st_db (serve float_of_str rq c db)) !! id = Some dev1 /\
    dev_id dev1 = dev_id dev /\ dev_user_id dev1 = dev_user_id dev /\
    device_name dev1 = device_name dev /\ device_type dev1 = device_type dev /\
    created_at dev1 = created_at dev) as (dev1 & Hl1 & H1).
  { pose proof (serve_db_step rq c db) as H.
    destruct (current_user rq); [by eapply db_step_devices|].
    rewrite H. by exists dev. }
  destruct (IH _ dev1 Hl1) as (dev' & Hl' & H').
  destruct (serve_all float_of_str calls _) as [db' es]; simpl in *.
  exists dev'. split; [done|]. intuition congruence.
Qed.

(** X3. Primary keys stay consistent along any sequence of calls. *)
Theorem keys_stay_consistent (calls : list (Request * api_call)) (db : DB) :
  keys_consistent db -> keys_consistent (fst (serve_all float_of_str calls db)).
Proof.
  revert db. induction calls as [|[rq c] calls IH]; intros db Hk; simpl; [done|].
  specialize (IH (st_db (serve float_of_str rq c db))).
  destruct (serve_all float_of_str calls _) as [db' es]; simpl in *.
  apply IH. pose proof (serve_db_step rq c db) as H.
  destruct (current_user rq); [by eapply db_step_keys|by rewrite H].
Qed.

(** X4. Calls of other identities leave the devices and the readings of an
    identity as they are. *)
Theorem other_identities_cannot_write
    (calls : list (Request * api_call)) (db : DB) (user_id : string) :
  Forall (fun call => current_user (fst call) <> Some user_id) calls ->
  let db' := fst (serve_all float_of_str calls db) in
  (forall id dev, dev_user_id dev = user_id ->
     devices db' !! id = Some dev <-> devices db !! id = Some dev) /\
  List.filter (fun r => String.eqb (nr_user_id r) user_id) (readings db') =
  List.filter (fun r => String.eqb (nr_user_id r) user_id) (readings db).
Proof.
  revert db. induction calls as [|[rq c] calls IH]; intros db Hall; simpl; [done|].
  apply Forall_cons in Hall as [Hrq Hall]. simpl in Hrq.
  specialize (IH (st_db (serve float_of_str rq c db)) Hall). simpl in IH.
  destruct (serve_all float_of_str calls _) as [db' es]; simpl in *.
  assert ((forall id dev, dev_user_id dev = user_id ->
             devices (st_db (serve float_of_str rq c db)) !! id = Some dev <->
             devices db !! id = Some dev) /\
          List.filter (fun r => String.eqb (nr_user_id r) user_id)
            (readings (st_db (serve float_of_str rq c db))) =
          List.filter (fun r => String.eqb (nr_user_id r) user_id) (readings db))
    as [Hd Hr].
  { pose proof (serve_db_step rq c db) as H.
    destruct (current_user rq) as [uid|]; [|by rewrite H].
    eapply db_step_other; [done|]. congruence. }
  destruct IH as [IHd IHr]. split; [|congruence].
  intros id dev Ho. by rewrite IHd, Hd.
Qed.

(** X5. Calls without identity change nothing and emit nothing. *)
Theorem anonymous_calls_leave_no_trace (calls : list (Request * api_call)) (db : DB) :
  Forall (fun call => current_user (fst call) = None) calls ->
  serve_all float_of_str calls db = (db, []).
Proof.
  revert db. induction calls as [|[rq c] calls IH]; intros db Hall; simpl; [done|].
  apply Forall_cons in Hall as [Hrq Hall]. simpl in Hrq.
  pose proof (serve_db_step rq c db) as H. rewrite Hrq in H. rewrite H. simpl.
  by rewrite (IH db Hall).
Qed.

(** X6. A call emits at most one event and leaves no pending change. An [error]
    event goes to the sender alone and comes with unchanged tables; any other
    event follows a commit and carries a row as the tables now hold it,
    to every client or to the room of the caller. *)
Theorem emission_follows_commit (rq : Request) (c : api_call) (db : DB) :
  let st := serve float_of_str rq c db in
  st_session st = empty_session /\
  (st = initial db \/
   (exists e, st_emitted st = [mkEmit "error" (PError e) (ToSid (sid rq))] /\
              st_db st = db) \/
   (exists user_id e,
      current_user rq = Some user_id /\ commit_ok rq = true /\
      st_emitted st = [e] /\ emission_committed (st_db st) e /\
      dest e = (if broadcasts c then ToAll else ToRoom user_id))).
Proof.
  destruct (serve_outcome float_of_str rq c db) as [H _]. simpl.
  destruct H as [|e _ _|uid db' e Hu Hc Hstep He Hd]; simpl.
  - split; [done|by left].
  - split; [done|]. right. left. by exists e.
  - split; [done|]. right. right. by exists uid, e.
Qed.

End Traces.

(** ** Rooms *)

#[local] Set Warnings "-clear-no-such-hyp".

Lemma members_join (h : Hub) (room sid room' : string) :
  members (join_room room sid h) room' =
  if decide (room = room') then {[sid]} ∪ members h room else members h room'.
Proof.
  unfold members, join_room. simpl. destruct (decide (room = room')) as [->|Hne].
  - by rewrite lookup_insert_eq.
  - by rewrite lookup_insert_ne.
Qed.

Lemma members_leave (h : Hub) (room sid room' : string) :
  members (leave_room room sid h) room' =
  if decide (room = room') then members h room ∖ {[sid]} else members h room'.
Proof.
  unfold members, leave_room. simpl. destruct (decide (room = room')) as [->|Hne].
  - by rewrite lookup_insert_eq.
  - by rewrite lookup_insert_ne.
Qed.

(** X7. Joining twice is joining once: a second [connect] of the same connection
    leaves the clients and the rooms as the first left them. *)
Theorem connect_idempotent (rq : Request) (h : Hub) :
  handle_connect rq (fst (handle_connect rq h)) = handle_connect rq h.
Proof.
  unfold handle_connect. destruct (current_user rq) as [uid|]; [|done]. simpl.
  f_equal. unfold join_room, members. simpl. rewrite lookup_insert_eq. simpl.
  rewrite insert_insert_eq. f_equal.
  - set_solver.
  - f_equal. set_solver.
Qed.

Lemma handle_disconnect_clients (rq : Request) (h : Hub) :
  sid rq ∉ clients (handle_disconnect rq h).
Proof. unfold handle_disconnect. simpl. set_solver. Qed.

(** The members of a room after a disconnection. *)
Lemma members_disconnect (rq : Request) (h : Hub) (room : string) :
  members (handle_disconnect rq h) room = members h room ∖ {[sid rq]}.
Proof.
  unfold handle_disconnect, members. simpl. rewrite lookup_fmap.
  destruct (current_user rq) as [uid|]; simpl.
  - destruct (decide (uid = room)) as [->|Hne].
    + rewrite lookup_insert_eq. simpl. set_solver.
    + rewrite lookup_insert_ne by done.
      destruct (rooms h !! room); simpl; set_solver.
  - destruct (rooms h !! room); simpl; set_solver.
Qed.

(** X8. After [disconnect] the connection is no client, is no member of the room
    of its identity, and the other connections are where they were. *)
Theorem disconnect_leaves (rq : Request) (h : Hub) :
  let h' := handle_disconnect rq h in
  (sid rq ∉ clients h') /\
  (forall user_id, current_user rq = Some user_id -> sid rq ∉ members h' user_id) /\
  (forall s room, s <> sid rq ->
     (s ∈ clients h' <-> s ∈ clients h) /\ (s ∈ members h' room <-> s ∈ members h room)).
Proof.
  intros h'. subst h'. split; [apply handle_disconnect_clients|]. split.
  - intros uid _. rewrite members_disconnect. set_solver.
  - intros s room Hne. rewrite members_disconnect. split; [|set_solver].
    unfold handle_disconnect. destruct (current_user rq); simpl; set_solver.
Qed.

(** The rooms along a sequence of connections: a member of a room is a
    connected client whose identity the room is named after. *)
Lemma hub_invariant (owner : string -> option string) (evs : list conn_event) :
  respects owner evs ->
  forall room s, s ∈ members (hub_after evs) room ->
                 owner s = Some room /\ s ∈ clients (hub_after evs).
Proof.
  unfold hub_after, respects.
  induction evs as [|ev evs IH] using rev_ind; intros Hall room s.
  { unfold members. simpl. rewrite lookup_empty. set_solver. }
  apply Forall_app in Hall as [Hall Hev]. apply Forall_inv in Hev.
  specialize (IH Hall). rewrite fold_left_app. simpl.
  set (h := fold_left hub_step evs (mkHub ∅ ∅)) in *.
  destruct ev as [rq|rq]; simpl in *.
  - unfold handle_connect. destruct (current_user rq) as [uid|] eqn:Hu; simpl; [|apply IH].
    rewrite members_join. unfold members at 1 2. simpl.
    change (default ∅ (rooms h !! uid)) with (members h uid).
    change (default ∅ (rooms h !! room)) with (members h room).
    destruct (decide (uid = room)) as [->|Hne].
    + intros [->%elem_of_singleton|Hin]%elem_of_union.
      * split; [congruence|set_solver].
      * destruct (IH room s Hin). split; [done|set_solver].
    + intros Hin. destruct (IH room s Hin). split; [done|set_solver].
  - rewrite members_disconnect. intros [Hin Hns]%elem_of_difference.
    destruct (IH room s Hin) as [Ho Hc]. split; [done|].
    unfold handle_disconnect. destruct (current_user rq); simpl; set_solver.
Qed.

(** X9. Room isolation: after any sequence of connections and disconnections, an
    emission to the room of an identity is observed only by connected clients
    of that identity. *)
Theorem room_emission_isolated (owner : string -> option string)
    (evs : list conn_event) (room s : string) (ev : string) (p : payload) :
  respects owner evs ->
  observes (hub_after evs) s (mkEmit ev p (ToRoom room)) = true ->
  owner s = Some room /\ s ∈ clients (hub_after evs).
Proof.
  intros Hall Hobs. apply bool_decide_eq_true in Hobs. simpl in Hobs.
  by apply (hub_invariant owner evs).
Qed.


(** ** The classifier, once more *)

(** X11. Severity does not decrease with the level: of two binary64 levels, the
    one that is not smaller is classified at least as severe; minus infinity
    is in the lowest tier and plus infinity in the highest. *)
Theorem get_noise_category_monotone (x y : spec_float) (qx qy : Q) :
  Float.is_binary64 x = true -> Float.is_binary64 y = true ->
  Float.to_Q x = Some qx -> Float.to_Q y = Some qy -> (qx <= qy)%Q ->
  severity (get_noise_category Float.neg_infinity) <= severity (get_noise_category x) /\
  severity (get_noise_category x) <= severity (get_noise_category y) /\
  severity (get_noise_category y) <= severity (get_noise_category Float.pos_infinity).
Proof.
  intros Hx Hy Hqx Hqy Hle.
  pose proof (le_int_70 x qx Hx Hqx) as Hx70. pose proof (le_int_85 x qx Hx Hqx) as Hx85.
  pose proof (le_int_70 y qy Hy Hqy) as Hy70. pose proof (le_int_85 y qy Hy Hqy) as Hy85.
  change (get_noise_category Float.neg_infinity) with "safe".
  change (get_noise_category Float.pos_infinity) with "harmful".
  unfold get_noise_category.
  destruct (Float.le_int x 70) eqn:Ex70, (Float.le_int x 85) eqn:Ex85,
    (Float.le_int y 70) eqn:Ey70, (Float.le_int y 85) eqn:Ey85;
    try (by vm_compute); exfalso.
  all: try (assert (false = true)
              by (apply Hx70; apply Qle_trans with qy; [done|by apply Hy70]); done).
  all: try (assert (false = true)
              by (apply Hx85; apply Qle_trans with qy; [done|by apply Hy85]); done).
Qed.

Lemma get_noise_category_monotone_witness :
  severity (get_noise_category Float.f70_1) <= severity (get_noise_category Float.f85_1).
Proof.
  by destruct (get_noise_category_monotone Float.f70_1 Float.f85_1 _ _
                 eq_refl eq_refl eq_refl eq_refl ltac:(by vm_compute)) as (_ & H & _).
Defined.

(** ** The listing views *)

#[local] Instance not_older_total : Total not_older.
Proof. intros r1 r2. unfold not_older. lia. Qed.

#[local] Instance not_older_trans : Transitive not_older.
Proof. intros r1 r2 r3. unfold not_older. lia. Qed.

Lemma newest_first_sorted (rs : list NoiseReading) :
  StronglySorted not_older (newest_first rs).
Proof. apply StronglySorted_merge_sort; apply _. Qed.

Lemma newest_first_perm (rs : list NoiseReading) : newest_first rs ≡ₚ rs.
Proof. apply merge_sort_Permutation. Qed.

Lemma sql_limit_split {A : Type} (n : Z) (rows : list A) :
  exists rest,
    (sql_limit n rows ++ rest)%list = rows /\
    length (sql_limit n rows) =
      (if (n <? 0)%Z then length rows else Nat.min (Z.to_nat n) (length rows)).
Proof.
  unfold sql_limit. destruct (n <? 0)%Z.
  - exists []. by rewrite app_nil_r.
  - exists (drop (Z.to_nat n) rows). split; [apply take_drop|apply length_take].
Qed.

Lemma reading_selected_spec (user_id : string) (bounds : option (Z * Z))
    (r : NoiseReading) :
  reading_selected user_id bounds r = true <->
  nr_user_id r = user_id /\
  match bounds with
  | Some (lo, hi) => lo <= timestamp r <= hi
  | None => True
  end.
Proof.
  unfold reading_selected. rewrite andb_true_iff, String.eqb_eq.
  destruct bounds as [[lo hi]|]; [|tauto].
  rewrite andb_true_iff, !Z.leb_le. tauto.
Qed.

(** X12. [get_devices] and [get_bluetooth_devices] list a device if and only if it
    is stored and the caller owns it; they change nothing and emit nothing,
    and refuse a request without identity. *)
Theorem get_devices_lists_own_devices (rq : Request) (db : DB) :
  match current_user rq with
  | Some user_id =>
      exists rows,
        run (dispatch_answer (get_devices rq)) db = (Ok (Answer rows), initial db) /\
        run (dispatch_answer (get_bluetooth_devices rq)) db
          = (Ok (Answer rows), initial db) /\
        forall dev, dev ∈ rows <->
                    exists id, devices db !! id = Some dev /\ dev_user_id dev = user_id
  | None =>
      run (dispatch_answer (get_devices rq)) db
        = (Ok (Refusal 401 "Unauthorized"), initial db) /\
      run (dispatch_answer (get_bluetooth_devices rq)) db
        = (Ok (Refusal 401 "Unauthorized"), initial db)
  end.
Proof.
  unfold run, dispatch_answer, get_devices, get_bluetooth_devices,
    login_required_answer, try_except.
  destruct (current_user rq) as [uid|]; [|done].
  eexists. split; [done|]. split; [done|]. simpl.
  intros dev. rewrite list_elem_of_filter, list_elem_of_fmap. split.
  - intros [Ho ([id dev'] & -> & Hin%elem_of_map_to_list)]. by exists id.
  - intros (id & Hl & Ho). split; [done|]. exists (id, dev). split; [done|].
    by apply elem_of_map_to_list.
Qed.

Lemma int64_spec (n : Z) : int64 n = true <-> - 2 ^ 63 <= n < 2 ^ 63.
Proof. unfold int64. rewrite andb_true_iff, Z.leb_le, Z.ltb_lt. tauto. Qed.

(** X13. For a [limit] of 64 bits, [get_noise_readings] answers with the
    caller's readings, newest first, cut at [limit] rows (uncut for a
    negative [limit]); the rows left out are no newer than any row of the
    answer. *)
Theorem get_noise_readings_newest (rq : Request) (user_id : string) (limit : Z) (db : DB) :
  current_user rq = Some user_id -> - 2 ^ 63 <= limit < 2 ^ 63 ->
  exists rows rest,
    run (dispatch_answer (get_noise_readings rq limit)) db
      = (Ok (Answer rows), initial db) /\
    (forall r, r ∈ rows -> r ∈ readings db /\ nr_user_id r = user_id) /\
    (rows ++ rest)%list ≡ₚ List.filter (reading_selected user_id None) (readings db) /\
    StronglySorted not_older (rows ++ rest)%list /\
    length rows =
      (if (limit <? 0)%Z then length (rows ++ rest)%list
       else Nat.min (Z.to_nat limit) (length (rows ++ rest)%list)).
Proof.
  intros Hu Hlim%int64_spec.
  unfold run, dispatch_answer, get_noise_readings, login_required_answer, try_except.
  rewrite Hu, Hlim. simpl.
  set (all := List.filter (reading_selected user_id None) (readings db)).
  destruct (sql_limit_split limit (newest_first all)) as (rest & Hsplit & Hlen).
  exists (sql_limit limit (newest_first all)), rest.
  split; [done|]. rewrite Hsplit.
  split; [|split; [apply newest_first_perm|split; [apply newest_first_sorted|done]]].
  intros r Hr.
  assert (Hin : r ∈ all).
  { rewrite <- (newest_first_perm all), <- Hsplit. set_solver. }
  apply list_elem_of_In, filter_In in Hin as [Hin Hsel].
  apply reading_selected_spec in Hsel as [Ho _]. split; [by apply list_elem_of_In|done].
Qed.

(** X14. [get_noise_readings_range] answers with exactly the caller's readings
    between the two dates, both included, newest first; a date that does not
    parse gives status 500. *)
Theorem get_noise_readings_range_exact
    (rq : Request) (user_id : string) (startDate endDate : result Z) (db : DB) :
  current_user rq = Some user_id ->
  match startDate, endDate with
  | Ok start_date, Ok end_date =>
      exists rows,
        run (dispatch_answer (get_noise_readings_range rq startDate endDate)) db
          = (Ok (Answer rows), initial db) /\
        StronglySorted not_older rows /\
        rows ≡ₚ List.filter (reading_selected user_id (Some (start_date, end_date)))
                  (readings db) /\
        (forall r, r ∈ rows <->
                   r ∈ readings db /\ nr_user_id r = user_id /\
                   start_date <= timestamp r <= end_date)
  | _, _ =>
      run (dispatch_answer (get_noise_readings_range rq startDate endDate)) db
        = (Ok (Refusal 500 "Internal server error"), initial db)
  end.
Proof.
  intros Hu.
  unfold run, dispatch_answer, get_noise_readings_range, login_required_answer,
    try_except, mbind, M_bind, lift.
  rewrite Hu. simpl.
  destruct startDate as [s|e]; [|done]. destruct endDate as [e|e']; [|done]. simpl.
  eexists. split; [done|]. split; [apply newest_first_sorted|].
  split; [apply newest_first_perm|].
  intros r. rewrite (newest_first_perm _).
  rewrite list_elem_of_In, filter_In, reading_selected_spec, <- list_elem_of_In. tauto.
Qed.

(** ** Exposure statistics *)

Lemma minutes_in_app (label : string) (rs rs' : list NoiseReading) :
  minutes_in label (rs ++ rs') = minutes_in label rs + minutes_in label rs'.
Proof. unfold minutes_in. rewrite List.filter_app, length_app. lia. Qed.

Lemma labels_exclusive (r : NoiseReading) :
  has_category "safe" r && has_category "moderate" r = false /\
  has_category "safe" r && has_category "harmful" r = false /\
  has_category "moderate" r && has_category "harmful" r = false.
Proof.
  unfold has_category. destruct (category r) as [| | | |s| |]; try done.
  destruct (String.eqb_spec s "safe") as [->|]; [done|].
  destruct (String.eqb_spec s "moderate") as [->|]; [done|]. done.
Qed.

Lemma minutes_total (rs : list NoiseReading) :
  minutes_in "safe" rs + minutes_in "moderate" rs + minutes_in "harmful" rs
  = 5 * Z.of_nat (length (List.filter
                            (fun r => has_category "safe" r || has_category "moderate" r
                                      || has_category "harmful" r) rs)).
Proof.
  unfold minutes_in. induction rs as [|r rs IH]; [done|].
  simpl. destruct (labels_exclusive r) as (H1 & H2 & H3).
  destruct (has_category "safe" r), (has_category "moderate" r),
    (has_category "harmful" r); simpl in *; try discriminate; lia.
Qed.

Lemma day_window (now : Z) :
  start_of_day now <= now <= end_of_day now /\
  start_of_day now mod microseconds_per_day = 0 /\
  end_of_day now = start_of_day now + microseconds_per_day - 1.
Proof.
  unfold end_of_day, start_of_day, microseconds_per_day.
  pose proof (Z.mod_pos_bound now 86400000000 ltac:(lia)).
  split; [lia|]. split; [|lia].
  rewrite Zminus_mod, Zmod_mod, Z.sub_diag. done.
Qed.

(** X15. [get_today_exposure_stats] counts five minutes for each reading of the
    caller in the day of [now] whose category is one of the three labels: the
    three totals add up to five times the number of those readings, and
    readings with another category, of another day or of another identity
    count for nothing. *)
Theorem exposure_stats_total (rq : Request) (user_id : string) (now : Z) (db : DB) :
  current_user rq = Some user_id ->
  exists stats,
    run (dispatch_answer (get_today_exposure_stats rq now)) db
      = (Ok (Answer stats), initial db) /\
    let labelled r :=
      has_category "safe" r || has_category "moderate" r || has_category "harmful" r in
    let counted r :=
      reading_selected user_id (Some (start_of_day now, end_of_day now)) r
      && labelled r in
    totalSafeTime stats + totalModerateTime stats + totalHarmfulTime stats
      = 5 * Z.of_nat (length (List.filter counted (readings db))) /\
    (forall r, counted r = true <->
               nr_user_id r = user_id /\
               start_of_day now <= timestamp r < start_of_day now + microseconds_per_day /\
               (category r = VStr "safe" \/ category r = VStr "moderate" \/
                category r = VStr "harmful")) /\
    start_of_day now <= now < start_of_day now + microseconds_per_day.
Proof.
  intros Hu.
  unfold run, dispatch_answer, get_today_exposure_stats, login_required_answer, try_except.
  rewrite Hu. simpl. eexists. split; [done|]. simpl.
  destruct (day_window now) as (Hnow & _ & Hend).
  split; [|split; [|lia]].
  - rewrite minutes_total. f_equal. f_equal.
    induction (readings db) as [|r rs IH]; [done|]. simpl.
    destruct (reading_selected user_id _ r); simpl; [|done].
    destruct (_ || _); simpl; by rewrite IH.
  - intros r. rewrite andb_true_iff, reading_selected_spec, !orb_true_iff.
    unfold has_category.
    assert (Hlab : forall l, match category r with VStr s => String.eqb s l | _ => false end
                              = true <-> category r = VStr l).
    { intros l. destruct (category r); try (split; [done|discriminate]).
      rewrite String.eqb_eq. split; [by intros ->|by intros [= ->]]. }
    rewrite !Hlab. split.
    + intros [[Ho Hb] Hl]. split; [done|]. split; [lia|tauto].
    + intros (Ho & Hb & Hl). split; [split; [done|lia]|tauto].
Qed.

(** The readings of the day of [now] after [create_noise_reading] stored one
    more. *)
Lemma stored_reading_minutes
    (float_of_str : string -> option spec_float) (rq : Request) (user_id : string)
    (level : spec_float) (label : string) (now : Z) (db : DB) :
  current_user rq = Some user_id -> commit_ok rq = true ->
  reading_id_taken db (uuid4 rq) = false ->
  start_of_day now <= utcnow rq <= end_of_day now ->
  let db' :=
    st_db (snd (run (dispatch (create_noise_reading float_of_str rq
                       (VDict [("noiseLevel", VFloat level); ("category", VStr label)])))
                  db)) in
  let today db := List.filter
                    (reading_selected user_id (Some (start_of_day now, end_of_day now)))
                    (readings db) in
  forall l, minutes_in l (today db') =
            minutes_in l (today db) + (if String.eqb label l then 5 else 0).
Proof.
  intros Hu Hc Hfresh Hday db' today l.
  assert (Hdb' : db' = mkDB (devices db)
            (readings db ++ [mkNoiseReading (uuid4 rq) user_id level (VStr label)
                               (utcnow rq) (VStr "Real-time monitoring")])).
  { unfold db', run, dispatch, create_noise_reading, login_required_api, try_except,
      mbind, M_bind, lift, initial, commit, key_conflict.
    rewrite Hu. simpl. rewrite Hc, Hfresh. simpl.
    unfold flush. simpl. by rewrite (left_id ∅ (∪)). }
  unfold today. rewrite Hdb'. simpl. rewrite List.filter_app, minutes_in_app. f_equal.
  simpl. unfold reading_selected at 1. simpl. rewrite String.eqb_refl. simpl.
  destruct (Z.leb_spec (start_of_day now) (utcnow rq)); [|lia].
  destruct (Z.leb_spec (utcnow rq) (end_of_day now)); [|lia]. simpl.
  unfold minutes_in, has_category. simpl. by destruct (String.eqb label l).
Qed.

(** X16. A reading stored by [create_noise_reading] with category [label], at an
    instant of the day of [now], adds five minutes to the total of [label]
    in the answer of [get_today_exposure_stats] to its owner, and nothing to
    the other totals. *)
Theorem stored_reading_counts_five_minutes
    (float_of_str : string -> option spec_float) (rq rq' : Request) (user_id : string)
    (level : spec_float) (label : string) (now : Z) (db : DB) :
  current_user rq = Some user_id -> commit_ok rq = true ->
  reading_id_taken db (uuid4 rq) = false ->
  start_of_day now <= utcnow rq <= end_of_day now ->
  current_user rq' = Some user_id ->
  let db' :=
    st_db (snd (run (dispatch (create_noise_reading float_of_str rq
                       (VDict [("noiseLevel", VFloat level); ("category", VStr label)])))
                  db)) in
  exists before after,
    run (dispatch_answer (get_today_exposure_stats rq' now)) db
      = (Ok (Answer before), initial db) /\
    run (dispatch_answer (get_today_exposure_stats rq' now)) db'
      = (Ok (Answer after), initial db') /\
    totalSafeTime after =
      totalSafeTime before + (if String.eqb label "safe" then 5 else 0) /\
    totalModerateTime after =
      totalModerateTime before + (if String.eqb label "moderate" then 5 else 0) /\
    totalHarmfulTime after =
      totalHarmfulTime before + (if String.eqb label "harmful" then 5 else 0).
Proof.
  intros Hu Hc Hfresh Hday Hu' db'.
  pose proof (stored_reading_minutes float_of_str rq user_id level label now db
                Hu Hc Hfresh Hday) as Hmin. simpl in Hmin. fold db' in Hmin.
  unfold run, dispatch_answer, get_today_exposure_stats, login_required_answer,
    try_except, mbind, M_bind, NoiseReading_query.
  rewrite Hu'. simpl. do 2 eexists. split; [reflexivity|]. split; [reflexivity|].
  simpl. by rewrite !Hmin.
Qed.


(** ** Registration of devices and required fields *)

(** X17. [connect_bluetooth_device] answers 400 and touches nothing when the
    JSON of the body is a value Python takes for false (null, an empty
    object, array or string, zero, false) or an object whose [deviceName] is
    missing or such a value. *)
Theorem connect_requires_device_name (rq : Request) (user_id : string) (data : value)
    (db : DB) :
  current_user rq = Some user_id ->
  truthy data = false \/
  (exists d, data = VDict d /\ truthy (dict_get_default "deviceName" d VNone) = false) ->
  run (dispatch (connect_bluetooth_device rq data)) db =
  (Ok (Response 400 (PMessage "Device name is required")), initial db).
Proof.
  intros Hu H.
  unfold run, dispatch, connect_bluetooth_device, login_required_api, try_except,
    mbind, M_bind, lift.
  rewrite Hu. simpl.
  destruct H as [Hf|(d & -> & Hn)].
  - by rewrite Hf.
  - destruct (truthy (VDict d)); simpl; [|done].
    unfold dict_get_default in Hn. by rewrite Hn.
Qed.





Section RequiredFields.

Variable float_of_str : string -> option spec_float.


(** X21. A [device_update] message whose [deviceId] is missing, null, empty, zero
    or false is dropped without a trace; a payload that is no JSON object
    brings the sender an [error] event and nothing else. *)
Theorem device_update_without_target (rq : Request) (data : value) (db : DB) :
  match data with
  | VDict d =>
      truthy (dict_get_default "deviceId" d VNone) = false ->
      run (handle_device_update float_of_str rq data) db = (Ok tt, initial db)
  | _ =>
      forall user_id, current_user rq = Some user_id ->
      run (handle_device_update float_of_str rq data) db =
      (Ok tt, mkSt db empty_session
                [mkEmit "error" (PError AttributeError) (ToSid (sid rq))])
  end.
Proof.
  unfold run, handle_device_update, try_except, mbind, M_bind, lift.
  destruct data as [| | | | | |d]; try (intros uid ->; reflexivity).
  intros Hf. destruct (current_user rq); [|done]. simpl.
  unfold dict_get_default in Hf. by rewrite Hf.
Qed.

End RequiredFields.

(** ** The properties on the scenario *)

Lemma scenario_keys_consistent : keys_consistent Scenario.db.
Proof.
  split.
  - intros id dev. unfold Scenario.db, Sample.db. simpl.
    destruct (decide (id = "D")) as [->|HD].
    { rewrite lookup_insert_eq. by intros [= <-]. }
    rewrite lookup_insert_ne by done.
    destruct (decide (id = "E")) as [->|HE].
    { rewrite lookup_insert_eq. by intros [= <-]. }
    rewrite lookup_insert_ne by done. by rewrite lookup_empty.
  - simpl. apply (bool_decide_unpack _). by vm_compute.
Qed.

Lemma devices_persist_witness :
  exists dev',
    devices (fst (serve_all Sample.no_literal Scenario.calls Scenario.db)) !! "D"
      = Some dev' /\
    dev_id dev' = "D" /\ dev_user_id dev' = "U" /\
    device_name dev' = VStr "Buds" /\ device_type dev' = VStr "earbuds" /\
    created_at dev' = 50.
Proof.
  apply (devices_persist Sample.no_literal Scenario.calls Scenario.db "D" Sample.D).
  by vm_compute.
Defined.

Lemma keys_stay_consistent_witness :
  keys_consistent (fst (serve_all Sample.no_literal Scenario.calls Scenario.db)).
Proof.
  apply (keys_stay_consistent Sample.no_literal Scenario.calls Scenario.db).
  apply scenario_keys_consistent.
Defined.

Lemma other_identities_cannot_write_witness :
  let db' := fst (serve_all Sample.no_literal Scenario.calls Scenario.db) in
  (forall id dev, dev_user_id dev = "V" ->
     devices db' !! id = Some dev <-> devices Scenario.db !! id = Some dev) /\
  List.filter (fun r => String.eqb (nr_user_id r) "V") (readings db') =
  List.filter (fun r => String.eqb (nr_user_id r) "V") (readings Scenario.db).
Proof.
  apply (other_identities_cannot_write Sample.no_literal Scenario.calls Scenario.db "V").
  repeat constructor; simpl; discriminate.
Defined.

Lemma anonymous_calls_leave_no_trace_witness :
  serve_all Sample.no_literal
    [(Scenario.anonymous, CreateDevice (VDict [("deviceName", VStr "X")]));
     (Scenario.anonymous, DeviceUpdate (VDict [("deviceId", VStr "D")]))] Scenario.db
  = (Scenario.db, []).
Proof.
  apply anonymous_calls_leave_no_trace. repeat constructor.
Defined.

Lemma room_emission_isolated_witness :
  Scenario.owner "s1" = Some "U" /\ "s1" ∈ clients (hub_after Scenario.connections).
Proof.
  apply (room_emission_isolated Scenario.owner Scenario.connections "U" "s1"
           "device_status" (PMessage "")).
  - repeat constructor.
  - by vm_compute.
Defined.

Lemma get_noise_readings_newest_witness :
  exists rows rest,
    run (dispatch_answer (get_noise_readings (Sample.request true) 2)) Scenario.db
      = (Ok (Answer rows), initial Scenario.db) /\
    (forall r, r ∈ rows -> r ∈ readings Scenario.db /\ nr_user_id r = "U") /\
    (rows ++ rest)%list ≡ₚ List.filter (reading_selected "U" None) (readings Scenario.db) /\
    StronglySorted not_older (rows ++ rest)%list /\
    length rows = Nat.min 2 (length (rows ++ rest)%list).
Proof.
  apply (get_noise_readings_newest (Sample.request true) "U" 2 Scenario.db);
    [reflexivity|by vm_compute].
Defined.

Lemma get_noise_readings_range_exact_witness :
  exists rows,
    run (dispatch_answer (get_noise_readings_range (Sample.request true)
                            (Ok 1000) (Ok 2000))) Scenario.db
      = (Ok (Answer rows), initial Scenario.db) /\
    StronglySorted not_older rows /\
    rows ≡ₚ List.filter (reading_selected "U" (Some (1000, 2000))) (readings Scenario.db) /\
    (forall r, r ∈ rows <->
               r ∈ readings Scenario.db /\ nr_user_id r = "U" /\ 1000 <= timestamp r <= 2000).
Proof.
  apply (get_noise_readings_range_exact (Sample.request true) "U" (Ok 1000) (Ok 2000)
           Scenario.db).
  reflexivity.
Defined.

Lemma exposure_stats_total_witness :
  exists stats,
    run (dispatch_answer (get_today_exposure_stats (Sample.request true) 2200)) Scenario.db
      = (Ok (Answer stats), initial Scenario.db) /\
    totalSafeTime stats + totalModerateTime stats + totalHarmfulTime stats = 10.
Proof.
  destruct (exposure_stats_total (Sample.request true) "U" 2200 Scenario.db eq_refl)
    as (stats & Hrun & Hsum & _).
  exists stats. split; [done|]. rewrite Hsum. by vm_compute.
Defined.

Lemma stored_reading_counts_five_minutes_witness :
  let db' :=
    st_db (snd (run (dispatch (create_noise_reading Sample.no_literal (Sample.request true)
                       (VDict [("noiseLevel", VFloat Float.f90_0);
                               ("category", VStr "harmful")]))) Scenario.db)) in
  exists before after,
    run (dispatch_answer (get_today_exposure_stats (Sample.request true) 2200)) Scenario.db
      = (Ok (Answer before), initial Scenario.db) /\
    run (dispatch_answer (get_today_exposure_stats (Sample.request true) 2200)) db'
      = (Ok (Answer after), initial db') /\
    totalSafeTime after = totalSafeTime before + 0 /\
    totalModerateTime after = totalModerateTime before + 0 /\
    totalHarmfulTime after = totalHarmfulTime before + 5.
Proof.
  apply (stored_reading_counts_five_minutes Sample.no_literal (Sample.request true)
           (Sample.request true) "U" Float.f90_0 "harmful" 2200 Scenario.db);
    by vm_compute.
Defined.

Lemma connect_requires_device_name_witness :
  run (dispatch (connect_bluetooth_device (Sample.request true)
                   (VDict [("deviceName", VStr "")]))) Scenario.db =
  (Ok (Response 400 (PMessage "Device name is required")), initial Scenario.db).
Proof.
  apply (connect_requires_device_name (Sample.request true) "U"); [reflexivity|].
  right. eexists. split; reflexivity.
Defined.




Lemma device_update_without_target_witness :
  run (handle_device_update Sample.no_literal (Sample.request true)
         (VDict [("deviceId", VStr ""); ("batteryLevel", VInt 1)])) Scenario.db
  = (Ok tt, initial Scenario.db).
Proof.
  apply (device_update_without_target Sample.no_literal (Sample.request true)
           (VDict [("deviceId", VStr ""); ("batteryLevel", VInt 1)]) Scenario.db).
  reflexivity.
Defined.

(** ** Integer levels and scoped calls *)

(** X22. A JSON integer level between -1000 and 1000 converts to the float of
    the same value and is classified by the integer thresholds: safe up to
    70, moderate up to 85, harmful above. *)
Theorem integer_level_classified
    (float_of_str : string -> option spec_float) (n : Z) :
  -1000 <= n <= 1000 ->
  exists f q,
    py_float float_of_str (VInt n) = Ok f /\
    Float.to_Q f = Some q /\ (q == inject_Z n)%Q /\
    get_noise_category f =
      (if (n <=? 70)%Z then "safe" else if (n <=? 85)%Z then "moderate" else "harmful").
Proof.
  intros Hn.
  set (check := fun n : Z =>
         match Float.of_Z n with
         | S754_infinity _ => false
         | f =>
             match Float.to_Q f with
             | Some q => Qeq_bool q (inject_Z n)
             | None => false
             end &&
             String.eqb (get_noise_category f)
               (if (n <=? 70)%Z then "safe" else if (n <=? 85)%Z then "moderate" else "harmful")
         end).
  assert (Hall : forallb check (seqZ (-1000) 2001) = true) by (by vm_compute).
  assert (Hc : check n = true).
  { rewrite forallb_forall in Hall. apply Hall, list_elem_of_In, elem_of_seqZ. lia. }
  unfold check in Hc. unfold py_float.
  destruct (Float.of_Z n) as [s|s| |s m e] eqn:Hf; try discriminate Hc.
  - apply andb_true_iff in Hc as [Hq Hc]. apply String.eqb_eq in Hc.
    exists (S754_zero s), 0%Q. split; [reflexivity|]. split; [reflexivity|].
    split; [|exact Hc]. by apply Qeq_bool_iff.
  - apply andb_true_iff in Hc as [Hq Hc]. apply String.eqb_eq in Hc.
    eexists (S754_finite s m e), _. split; [reflexivity|]. split; [reflexivity|].
    split; [|exact Hc]. by apply Qeq_bool_iff.
Qed.

(** X23. The calls that name a room keep within the identity: along any sequence
    of connections, what a [device_update], [connect_bluetooth_device] or
    [disconnect_bluetooth_device] call of an identity emits is observed by no
    connection of another identity. *)
Theorem scoped_calls_isolated
    (float_of_str : string -> option spec_float) (owner : string -> option string)
    (evs : list conn_event) (rq : Request) (user_id : string) (c : api_call) (db : DB)
    (s : string) (e : Emit) :
  respects owner evs -> current_user rq = Some user_id ->
  owner (sid rq) = Some user_id -> broadcasts c = false ->
  owner s <> Some user_id ->
  e ∈ st_emitted (serve float_of_str rq c db) ->
  observes (hub_after evs) s e = false.
Proof.
  intros Hall Hu Hsid Hb Hs He. apply bool_decide_eq_false. intros Hobs.
  destruct (serve_outcome float_of_str rq c db) as [H _].
  destruct H as [|x _ _|uid db' e' Hu' _ _ _ Hd]; simpl in He.
  - by apply elem_of_nil in He.
  - apply list_elem_of_singleton in He as ->. simpl in Hobs.
    apply elem_of_singleton in Hobs as ->. congruence.
  - apply list_elem_of_singleton in He as ->. rewrite Hd, Hb in Hobs. simpl in Hobs.
    destruct (hub_invariant owner evs Hall uid s Hobs) as [Ho _]. congruence.
Qed.

Lemma integer_level_classified_witness :
  exists f q,
    py_float Sample.no_literal (VInt 90) = Ok f /\
    Float.to_Q f = Some q /\ (q == inject_Z 90)%Q /\
    get_noise_category f = "harmful".
Proof.
  apply (integer_level_classified Sample.no_literal 90). lia.
Defined.

Lemma scoped_calls_isolated_witness :
  observes (hub_after Scenario.connections) "s2"
    (mkEmit "device_status" (PDeviceUpdate "D" (VInt 42) 200) (ToRoom "U")) = false.
Proof.
  apply (scoped_calls_isolated Sample.no_literal Scenario.owner Scenario.connections
           (Sample.request true) "U"
           (DeviceUpdate (VDict [("deviceId", VStr "D"); ("batteryLevel", VInt 42)]))
           Scenario.db "s2").
  - repeat constructor.
  - reflexivity.
  - reflexivity.
  - reflexivity.
  - discriminate.
  - vm_compute. apply list_elem_of_singleton. reflexivity.
Defined.
